(** * rn-tooltip: the Tooltip component

    A shallow embedding of the overlay controller, the [Tooltip] function
    component that follows the [Triangle] component in the source:
    the style computations ([getTooltipStyle], [renderPointer], the highlight
    layer of [renderContent]) and the visibility / measurement state machine
    ([getElementPosition], [toggleTooltip], the mount effect, the [Modal]
    wiring).

    JavaScript numbers are IEEE-754 doubles and are modelled by Rocq's
    primitive floats, whose comparison is related to the IEEE order on
    [spec_float] by the standard library.  A style object is a finite map
    from property names to JavaScript values.  The module-level imports of
    the component
    ([isIOS], [ScreenWidth], [ScreenHeight] from ./helpers, the placement
    engine [getTooltipCoordinate], [I18nManager.isRTL]) are the fields of an
    environment record [Env]: the component is verified for every value of
    them. *)

From Stdlib Require Import Floats.
From stdpp Require Import gmap strings list fin_maps.

(** ** JavaScript values and style objects *)

(** The scalar values a style property holds. *)
Inductive jsval : Type :=
| VUndefined
| VNum (n : float)
| VStr (s : string).

(** [height?: number | string] and [width?: number | string]. *)
Inductive dimension : Type :=
| DNum (n : float)
| DStr (s : string).

(** [typeof d === "number"] *)
Definition typeof_number (d : dimension) : bool :=
  match d with DNum _ => true | DStr _ => false end.

(** The value of [d] where an arithmetic operator reads it.  Both uses in
    the component are guarded by [typeof d === "number"]; a string that is
    not a numeral converts to NaN. *)
Definition to_number (d : dimension) : float :=
  match d with DNum n => n | DStr _ => nan end.

Definition dimension_value (d : dimension) : jsval :=
  match d with DNum n => VNum n | DStr s => VStr s end.

(** A [ViewStyle] object: own properties by name. *)
Abbreviation ViewStyle := (gmap string jsval).

(** A property is unset when the object has no such key or holds
    [undefined] under it (an object literal [{left: undefined}] has the key). *)
Definition unset (o : option jsval) : Prop :=
  o = None \/ o = Some VUndefined.

(** ** Props, ambient environment, component state *)

Inductive ActionType : Type := press | longPress | none.

(** A handler of the [TouchableOpacity] that wraps the anchor: the
    component's own [toggleTooltip], or a function the caller supplied. *)
Inductive handler : Type :=
| HToggleTooltip
| HCaller (name : string).

(** The props of that [TouchableOpacity] that decide what a gesture does;
    a handler prop holds a function or nothing. *)
Record TouchableProps : Type := {
  onPress : option handler;
  onLongPress : option handler;
  activeOpacity : option float
}.

(** [toggleWrapperProps]: for each of these props, whether the caller's
    object has it ([None]: no such key) and, for a handler, whether it holds
    a function or [undefined]. *)
Record WrapperProps : Type := {
  wrapperOnPress : option (option string);
  wrapperOnLongPress : option (option string);
  wrapperActiveOpacity : option float
}.

(** [{}] *)
Definition noWrapperProps : WrapperProps :=
  {| wrapperOnPress := None; wrapperOnLongPress := None;
     wrapperActiveOpacity := None |}.

Record IProps : Type := {
  withPointer : bool;
  height : dimension;
  width : dimension;
  containerStyle : ViewStyle;
  pointerColor : option string;
  pointerStyle : ViewStyle;
  withOverlay : bool;
  overlayColor : option string;
  backgroundColor : string;
  highlightColor : string;
  toggleWrapperProps : WrapperProps;
  actionType : ActionType
}.

(** The defaults of the destructuring at the head of [Tooltip]. *)
Definition defaultProps : IProps := {|
  withPointer := true;
  height := DNum 40;
  width := DNum 150;
  containerStyle := ∅;
  pointerColor := None;
  pointerStyle := ∅;
  withOverlay := true;
  overlayColor := None;
  backgroundColor := "#617080";
  highlightColor := "transparent";
  toggleWrapperProps := noWrapperProps;
  actionType := press
|}.

(** The result of the placement engine, [{ x, y }]. *)
Record Coord : Type := { x : float; y : float }.

Record Env : Type := {
  isIOS : bool;
  isRTL : bool;
  ScreenWidth : float;
  ScreenHeight : float;
  getTooltipCoordinate :
    float -> float -> float -> float -> float -> float -> dimension -> bool -> Coord
}.

(** [renderedElementLayout] *)
Record Layout : Type := {
  yOffset : float;
  xOffset : float;
  elementWidth : float;
  elementHeight : float
}.

Definition initialLayout : Layout :=
  {| yOffset := 0; xOffset := 0; elementWidth := 0; elementHeight := 0 |}.

(** ** Style computations *)

Section Styles.
Context (env : Env) (props : IProps) (layout : Layout).

(** The call of the placement engine at the head of [getTooltipStyle]. *)
Definition tooltipCoordinate : Coord :=
  getTooltipCoordinate env
    (xOffset layout) (yOffset layout)
    (elementWidth layout) (elementHeight layout)
    (ScreenWidth env) (ScreenHeight env)
    (width props) (withPointer props).

(** The properties of the [tooltipStyle] literal that precede the spread
    of [containerStyle] (the keys are pairwise distinct). *)
Definition computedStyle : ViewStyle :=
  list_to_map
    [ ("position", VStr "absolute");
      ("left", if isRTL env then VUndefined else VNum (x tooltipCoordinate));
      ("right", if isRTL env then VNum (x tooltipCoordinate) else VUndefined);
      ("width", dimension_value (width props));
      ("height", dimension_value (height props));
      ("backgroundColor", VStr (backgroundColor props));
      ("display", VStr "flex");
      ("alignItems", VStr "center");
      ("justifyContent", VStr "center");
      ("flex", VNum 1);
      ("borderRadius", VNum 10);
      ("padding", VNum 10) ].

(** [{ ...computed, ...containerStyle }]: the spread copies every own
    property of [containerStyle] over what precedes it. *)
Definition mergedStyle : ViewStyle := containerStyle props ∪ computedStyle.

Definition getTooltipStyle : ViewStyle * bool :=
  let c := tooltipCoordinate in
  let tooltipStyle := mergedStyle in
  let pastMiddleLine := (y c <? yOffset layout)%float in
  let tooltipStyle :=
    if negb (typeof_number (height props)) && pastMiddleLine then
      <["bottom" := VNum (ScreenHeight env - y c)%float]> tooltipStyle
    else if typeof_number (height props) && pastMiddleLine then
      <["top" := VNum (y c - to_number (height props))%float]> tooltipStyle
    else
      <["top" := VNum (y c)]> tooltipStyle in
  (tooltipStyle, pastMiddleLine).

(** The style of the wrapper [View] in [renderPointer]. *)
Definition pointerViewStyle (pastMiddleLine : bool) : ViewStyle :=
  list_to_map
    [ ("position", VStr "absolute");
      ("top", VNum (if pastMiddleLine
                    then (yOffset layout - 13)%float
                    else (yOffset layout + elementHeight layout - 2)%float));
      ("left", if isRTL env then VUndefined
               else VNum (xOffset layout + elementWidth layout / 2 - 7.5)%float);
      ("right", if isRTL env
                then VNum (xOffset layout + elementWidth layout / 2 - 7.5)%float
                else VUndefined) ].

(** The style of the highlight [View] in [renderContent(true)]. *)
Definition highlightViewStyle : ViewStyle :=
  list_to_map
    [ ("position", VStr "absolute");
      ("top", VNum (yOffset layout));
      ("left", if isRTL env then VUndefined else VNum (xOffset layout));
      ("right", if isRTL env then VNum (xOffset layout) else VUndefined);
      ("backgroundColor", VStr (highlightColor props));
      ("overflow", VStr "visible");
      ("width", VNum (elementWidth layout));
      ("height", VNum (elementHeight layout)) ].
End Styles.

(** ** Component state, effects and the command monad *)

(** A pending [setTimeout]; the only callback the component schedules is
    [getElementPosition]. *)
Record Timer : Type := { timer_id : nat; due : nat }.

(** What a handler does to the outside world, and the state setters it
    calls, in program order. *)
Inductive Effect : Type :=
| EMeasureInWindow (tag : nat)
| ECallOnClose
| ECallOnOpen
| ESetIsVisible (b : bool)
| ESetRenderedElementLayout (l : Layout)
| ECallerHandler (name : string).

Inductive Lifecycle : Type := Created | Mounted | Disposed.

Record State : Type := {
  isVisible : bool;
  renderedElementLayout : Layout;
  (** [renderedElementRef.current]: the native tag of the mounted view *)
  current : option nat;
  (** [measureInWindow] callbacks requested and not yet delivered *)
  pendingMeasure : nat;
  lifecycle : Lifecycle;
  (** logical clock, in milliseconds *)
  now : nat;
  timers : list Timer;
  nextTimerId : nat;
  (** the [timeout] constant captured by the cleanup of the mount effect *)
  effectTimeout : option nat
}.

(** [useState(false)], [useState({0,0,0,0})], [useRef(null)]. *)
Definition initialState : State := {|
  isVisible := false;
  renderedElementLayout := initialLayout;
  current := None;
  pendingMeasure := 0;
  lifecycle := Created;
  now := 0;
  timers := [];
  nextTimerId := 1;
  effectTimeout := None
|}.

Definition with_isVisible (b : bool) (s : State) : State :=
  {| isVisible := b; renderedElementLayout := renderedElementLayout s;
     current := current s; pendingMeasure := pendingMeasure s;
     lifecycle := lifecycle s; now := now s; timers := timers s;
     nextTimerId := nextTimerId s; effectTimeout := effectTimeout s |}.

Definition with_layout (l : Layout) (s : State) : State :=
  {| isVisible := isVisible s; renderedElementLayout := l;
     current := current s; pendingMeasure := pendingMeasure s;
     lifecycle := lifecycle s; now := now s; timers := timers s;
     nextTimerId := nextTimerId s; effectTimeout := effectTimeout s |}.

Definition with_current (c : option nat) (s : State) : State :=
  {| isVisible := isVisible s; renderedElementLayout := renderedElementLayout s;
     current := c; pendingMeasure := pendingMeasure s;
     lifecycle := lifecycle s; now := now s; timers := timers s;
     nextTimerId := nextTimerId s; effectTimeout := effectTimeout s |}.

Definition with_pendingMeasure (n : nat) (s : State) : State :=
  {| isVisible := isVisible s; renderedElementLayout := renderedElementLayout s;
     current := current s; pendingMeasure := n;
     lifecycle := lifecycle s; now := now s; timers := timers s;
     nextTimerId := nextTimerId s; effectTimeout := effectTimeout s |}.

Definition with_lifecycle (b : Lifecycle) (s : State) : State :=
  {| isVisible := isVisible s; renderedElementLayout := renderedElementLayout s;
     current := current s; pendingMeasure := pendingMeasure s;
     lifecycle := b; now := now s; timers := timers s;
     nextTimerId := nextTimerId s; effectTimeout := effectTimeout s |}.

Definition with_now (t : nat) (s : State) : State :=
  {| isVisible := isVisible s; renderedElementLayout := renderedElementLayout s;
     current := current s; pendingMeasure := pendingMeasure s;
     lifecycle := lifecycle s; now := t; timers := timers s;
     nextTimerId := nextTimerId s; effectTimeout := effectTimeout s |}.

Definition with_timers (ts : list Timer) (s : State) : State :=
  {| isVisible := isVisible s; renderedElementLayout := renderedElementLayout s;
     current := current s; pendingMeasure := pendingMeasure s;
     lifecycle := lifecycle s; now := now s; timers := ts;
     nextTimerId := nextTimerId s; effectTimeout := effectTimeout s |}.

Definition with_nextTimerId (n : nat) (s : State) : State :=
  {| isVisible := isVisible s; renderedElementLayout := renderedElementLayout s;
     current := current s; pendingMeasure := pendingMeasure s;
     lifecycle := lifecycle s; now := now s; timers := timers s;
     nextTimerId := n; effectTimeout := effectTimeout s |}.

Definition with_effectTimeout (t : option nat) (s : State) : State :=
  {| isVisible := isVisible s; renderedElementLayout := renderedElementLayout s;
     current := current s; pendingMeasure := pendingMeasure s;
     lifecycle := lifecycle s; now := now s; timers := timers s;
     nextTimerId := nextTimerId s; effectTimeout := t |}.

(** The outcome of running a piece of the component: a value, the next
    state and the effects emitted, or an uncaught exception. *)
Inductive Result (A : Type) : Type :=
| Ok (a : A) (s : State) (out : list Effect)
| Throw (e : string).
Arguments Ok {A} a s out.
Arguments Throw {A} e.

Definition Cmd (A : Type) : Type := State -> Result A.

#[export] Instance Cmd_ret : MRet Cmd := fun A a s => Ok a s [].

#[export] Instance Cmd_bind : MBind Cmd := fun A B k c s =>
  match c s with
  | Ok a s1 o1 =>
      match k a s1 with
      | Ok b s2 o2 => Ok b s2 (o1 ++ o2)
      | Throw e => Throw e
      end
  | Throw e => Throw e
  end.

Definition gets {A : Type} (f : State -> A) : Cmd A := fun s => Ok (f s) s [].
Definition modify (f : State -> State) : Cmd unit := fun s => Ok tt (f s) [].
Definition emit (e : Effect) : Cmd unit := fun s => Ok tt s [e].
Definition throw {A : Type} (e : string) : Cmd A := fun _ => Throw e.

Definition when (b : bool) (c : Cmd unit) : Cmd unit :=
  if b then c else mret tt.

(** The effects of an outcome; none are observed from a thrown handler. *)
Definition output {A : Type} (r : Result A) : list Effect :=
  match r with Ok _ _ out => out | Throw _ => [] end.

Definition is_onClose (e : Effect) : bool :=
  match e with ECallOnClose => true | _ => false end.
Definition is_onOpen (e : Effect) : bool :=
  match e with ECallOnOpen => true | _ => false end.
Definition is_measure (e : Effect) : bool :=
  match e with EMeasureInWindow _ => true | _ => false end.

Definition count (p : Effect -> bool) (out : list Effect) : nat :=
  length (List.filter p out).

(** ** The component's functions *)

Definition setIsVisible (b : bool) : Cmd unit :=
  modify (with_isVisible b);; emit (ESetIsVisible b).

Definition setRenderedElementLayout (l : Layout) : Cmd unit :=
  modify (with_layout l);; emit (ESetRenderedElementLayout l).

Definition onClose : Cmd unit := emit ECallOnClose.
Definition onOpen : Cmd unit := emit ECallOnOpen.

(** [renderedElementRef.current.measureInWindow(callback)]: a method call on
    a null [current] throws; on a view it asks the native side for the
    geometry, which is delivered to the callback later. *)
Definition measureInWindow : Cmd unit :=
  cur ← gets current;
  match cur with
  | None => throw "TypeError: null is not an object"
  | Some tag =>
      n ← gets pendingMeasure;
      modify (with_pendingMeasure (S n));;
      emit (EMeasureInWindow tag)
  end.

(** The callback handed to [measureInWindow]. *)
Definition measureCallback (pageOffsetX pageOffsetY width height : float) : Cmd unit :=
  setRenderedElementLayout
    {| xOffset := pageOffsetX; yOffset := pageOffsetY;
       elementWidth := width; elementHeight := height |}.

(** JavaScript truthiness of [renderedElementRef.current]: null is falsy,
    a view is truthy. *)
Definition truthy (cur : option nat) : bool :=
  match cur with Some _ => true | None => false end.

Definition getElementPosition : Cmd unit :=
  cur ← gets current;
  if negb (truthy cur) then mret tt
  else measureInWindow.

Definition toggleTooltip (env : Env) : Cmd unit :=
  getElementPosition;;
  visible ← gets isVisible;
  when (visible && negb (isIOS env)) onClose;;
  setIsVisible (negb visible).

(** [setTimeout(getElementPosition, delay)] *)
Definition setTimeout (delay : nat) : Cmd nat :=
  id ← gets nextTimerId;
  t ← gets now;
  ts ← gets timers;
  modify (with_timers (ts ++ [{| timer_id := id; due := t + delay |}]));;
  modify (with_nextTimerId (S id));;
  mret id.

Definition clearTimeout (id : nat) : Cmd unit :=
  ts ← gets timers;
  modify (with_timers (List.filter (fun t => negb (timer_id t =? id)) ts)).

(** The body of [useEffect(..., [])], run once when the component mounts. *)
Definition mountEffect : Cmd unit :=
  timeout ← setTimeout 500;
  modify (with_effectTimeout (Some timeout)).

(** The function the effect returns, run when the component is torn down. *)
Definition mountEffectCleanup : Cmd unit :=
  t ← gets effectTimeout;
  match t with
  | Some timeout => clearTimeout timeout
  | None => mret tt
  end.

(** ** Events and the component's reaction to them *)

Inductive Event : Type :=
| Mount (tag : nat)
| Unmount
| Elapse (ms : nat)
| MeasureResult (pageOffsetX pageOffsetY width height : float)
| AnchorPress
| AnchorLongPress
| OverlayPress
| ModalRequestClose.

(** [{...base, ...toggleWrapperProps}]: a prop the caller's object has
    replaces the one written before the spread. *)
Definition spreadProps (base : TouchableProps) (w : WrapperProps) : TouchableProps :=
  {| onPress :=
       match wrapperOnPress w with
       | Some given => HCaller <$> given
       | None => onPress base
       end;
     onLongPress :=
       match wrapperOnLongPress w with
       | Some given => HCaller <$> given
       | None => onLongPress base
       end;
     activeOpacity :=
       match wrapperActiveOpacity w with
       | Some given => Some given
       | None => activeOpacity base
       end |}.

(** [wrapWithAction(actionType, children)]: the props of the
    [TouchableOpacity] put around the anchor,
    [onPress={toggleTooltip} activeOpacity={1} {...toggleWrapperProps}]
    (or [onLongPress]), or no wrapper at all for ["none"]. *)
Definition wrapWithAction (a : ActionType) (w : WrapperProps) : option TouchableProps :=
  match a with
  | press =>
      Some (spreadProps {| onPress := Some HToggleTooltip; onLongPress := None;
                           activeOpacity := Some 1%float |} w)
  | longPress =>
      Some (spreadProps {| onPress := None; onLongPress := Some HToggleTooltip;
                           activeOpacity := Some 1%float |} w)
  | none => None
  end.

(** The handler a gesture on the anchor reaches, if any. *)
Definition anchorHandler (props : IProps) (ev : Event) : option handler :=
  match ev with
  | AnchorPress =>
      wrapWithAction (actionType props) (toggleWrapperProps props) ≫= onPress
  | AnchorLongPress =>
      wrapWithAction (actionType props) (toggleWrapperProps props) ≫= onLongPress
  | _ => None
  end.

(** Calling that handler: the toggle, or the caller's function, of which
    the component sees nothing but the call. *)
Definition invoke (env : Env) (h : option handler) : Cmd unit :=
  match h with
  | Some HToggleTooltip => toggleTooltip env
  | Some (HCaller name) => emit (ECallerHandler name)
  | None => mret tt
  end.

(** The timers that expire run their callback, [getElementPosition]. *)
Fixpoint runTimers (expired : list Timer) : Cmd unit :=
  match expired with
  | [] => mret tt
  | _ :: rest => getElementPosition;; runTimers rest
  end.

Definition elapse (ms : nat) : Cmd unit :=
  t ← gets now;
  modify (with_now (t + ms));;
  ts ← gets timers;
  modify (with_timers (List.filter (fun tm => negb (due tm <=? t + ms)) ts));;
  runTimers (List.filter (fun tm => due tm <=? t + ms) ts).

(** Mounting attaches the ref and runs the effect; tearing down runs the
    effect's cleanup and detaches the ref. *)
Definition mount (tag : nat) : Cmd unit :=
  modify (with_lifecycle Mounted);;
  modify (with_current (Some tag));;
  mountEffect.

Definition unmount : Cmd unit :=
  mountEffectCleanup;;
  modify (with_current None);;
  modify (with_lifecycle Disposed).

Definition is_mounted (s : State) : bool :=
  match lifecycle s with Mounted => true | _ => false end.

(** The handlers the rendered tree binds:
    - the anchor's gesture, through [wrapWithAction];
    - [onPress={toggleTooltip}] of the overlay inside the [Modal], which is
      on screen while the modal is visible;
    - [onRequestClose={onClose}] of the [Modal];
    - the callback of a pending [measureInWindow]. *)
Definition handle (env : Env) (props : IProps) (ev : Event) : Cmd unit :=
  m ← gets is_mounted;
  visible ← gets isVisible;
  match ev with
  | Mount tag =>
      l ← gets lifecycle;
      match l with Created => mount tag | _ => mret tt end
  | Unmount => when m unmount
  | Elapse ms => elapse ms
  | MeasureResult pageOffsetX pageOffsetY width height =>
      n ← gets pendingMeasure;
      match n with
      | O => mret tt
      | S k =>
          modify (with_pendingMeasure k);;
          measureCallback pageOffsetX pageOffsetY width height
      end
  | AnchorPress | AnchorLongPress =>
      when m (invoke env (anchorHandler props ev))
  | OverlayPress => when (m && visible) (toggleTooltip env)
  | ModalRequestClose => when (m && visible) onClose
  end.

(** react-native's [Modal] with [visible={isVisible}], [onShow={onOpen}] and
    [onDismiss={onClose}]: [onShow] is called once the modal has been shown,
    [onDismiss] once it has been dismissed, the latter on iOS only. *)
Definition modalUpdate (env : Env) (was visible : bool) : Cmd unit :=
  if negb was && visible then onOpen
  else when (was && negb visible && isIOS env) onClose.

(** One event: the handler runs, the component re-renders and the [Modal]
    follows its [visible] prop. *)
Definition dispatch (env : Env) (props : IProps) (ev : Event) : Cmd unit :=
  was ← gets isVisible;
  handle env props ev;;
  visible ← gets isVisible;
  modalUpdate env was visible.

Fixpoint run (env : Env) (props : IProps) (evs : list Event) : Cmd unit :=
  match evs with
  | [] => mret tt
  | ev :: rest => dispatch env props ev;; run env props rest
  end.

(** ** Vocabulary of the statements *)

(** What [getElementPosition] leaves behind. *)
Definition measured (s : State) : State :=
  match current s with
  | None => s
  | Some _ => with_pendingMeasure (S (pendingMeasure s)) s
  end.

Definition measureRequest (s : State) : list Effect :=
  match current s with
  | None => []
  | Some tag => [EMeasureInWindow tag]
  end.

(** The horizontal edge a style is positioned by: under right-to-left the
    coordinate sits in [right] and [left] is unset, under left-to-right the
    other way round. *)
Definition horizontal (rtl : bool) (v : float) (st : ViewStyle) : Prop :=
  if rtl
  then st !! "right" = Some (VNum v) /\ unset (st !! "left")
  else st !! "left" = Some (VNum v) /\ unset (st !! "right").

Definition with_isRTL (rtl : bool) (env : Env) : Env :=
  {| isIOS := isIOS env; isRTL := rtl;
     ScreenWidth := ScreenWidth env; ScreenHeight := ScreenHeight env;
     getTooltipCoordinate := getTooltipCoordinate env |}.

(** The vertical edge [getTooltipStyle] writes after the merge. *)
Definition placedEdge (env : Env) (props : IProps) (layout : Layout) : string :=
  if negb (typeof_number (height props)) && snd (getTooltipStyle env props layout)
  then "bottom" else "top".

Definition placedValue (env : Env) (props : IProps) (layout : Layout) : float :=
  let c := tooltipCoordinate env props layout in
  if snd (getTooltipStyle env props layout) then
    if typeof_number (height props)
    then (y c - to_number (height props))%float
    else (ScreenHeight env - y c)%float
  else y c.

(** The anchor gestures that run the toggle. *)
Definition opens (props : IProps) (ev : Event) : bool :=
  match anchorHandler props ev with
  | Some HToggleTooltip => true
  | _ => false
  end.

(** The presses that reach the toggle while the overlay is shown. *)
Definition closes (props : IProps) (ev : Event) : bool :=
  match ev with
  | OverlayPress => true
  | _ => opens props ev
  end.

(** Events that are no gesture: time passing, a measurement arriving. *)
Definition idle (ev : Event) : bool :=
  match ev with
  | Elapse _ | MeasureResult _ _ _ _ => true
  | _ => false
  end.

(** What the [Modal] calls when its [visible] prop goes from [was] to
    [visible]. *)
Definition modalCalls (env : Env) (was visible : bool) : list Effect :=
  if negb was && visible then [ECallOnOpen]
  else if was && negb visible && isIOS env then [ECallOnClose]
  else [].

(** The effects of one toggle. *)
Definition toggleEffects (env : Env) (s : State) : list Effect :=
  measureRequest s
    ++ (if isVisible s && negb (isIOS env) then [ECallOnClose] else [])
    ++ [ESetIsVisible (negb (isVisible s))].

Definition is_setVisible (e : Effect) : bool :=
  match e with ESetIsVisible _ => true | _ => false end.

Definition is_unmount (ev : Event) : bool :=
  match ev with Unmount => true | _ => false end.

(** The time that passes during a list of events. *)
Fixpoint elapsed (evs : list Event) : nat :=
  match evs with
  | [] => 0
  | Elapse ms :: rest => ms + elapsed rest
  | _ :: rest => elapsed rest
  end.

(** The component is mounted and the timer of its mount effect is still
    pending. *)
Definition waiting (tag : nat) (s : State) : Prop :=
  lifecycle s = Mounted
  /\ current s = Some tag
  /\ timers s = [{| timer_id := 1; due := 500 |}]
  /\ effectTimeout s = Some 1.

(** The component has been torn down and no timer is left. *)
Definition disposed (s : State) : Prop :=
  lifecycle s = Disposed /\ current s = None /\ timers s = [].

(** While the component is mounted its ref holds the anchor's view. *)
Definition attached (s : State) : Prop :=
  lifecycle s = Mounted -> exists tag, current s = Some tag.

(** ** Sample inputs *)

(** A placement engine that answers 10 units above the anchor's top edge,
    flush with the left margin. *)
Definition engineAbove
    (x y width height ScreenWidth ScreenHeight : float)
    (tooltipWidth : dimension) (withPointer : bool) : Coord :=
  {| x := 10; y := (y - 10)%float |}.

Definition sampleEnv (ios rtl : bool) : Env :=
  {| isIOS := ios; isRTL := rtl;
     ScreenWidth := 400; ScreenHeight := 800;
     getTooltipCoordinate := engineAbove |}.

(** A placement engine that answers the anchor's own top edge. *)
Definition engineOnAnchor
    (x y width height ScreenWidth ScreenHeight : float)
    (tooltipWidth : dimension) (withPointer : bool) : Coord :=
  {| x := 10; y := y |}.

(** An anchor near the bottom of a 400 x 800 screen. *)
Definition lowAnchor : Layout :=
  {| yOffset := 700; xOffset := 20; elementWidth := 100; elementHeight := 40 |}.

Definition with_height (h : dimension) (props : IProps) : IProps :=
  {| withPointer := withPointer props; height := h; width := width props;
     containerStyle := containerStyle props; pointerColor := pointerColor props;
     pointerStyle := pointerStyle props; withOverlay := withOverlay props;
     overlayColor := overlayColor props; backgroundColor := backgroundColor props;
     highlightColor := highlightColor props;
     toggleWrapperProps := toggleWrapperProps props;
     actionType := actionType props |}.

Definition with_containerStyle (cs : ViewStyle) (props : IProps) : IProps :=
  {| withPointer := withPointer props; height := height props; width := width props;
     containerStyle := cs; pointerColor := pointerColor props;
     pointerStyle := pointerStyle props; withOverlay := withOverlay props;
     overlayColor := overlayColor props; backgroundColor := backgroundColor props;
     highlightColor := highlightColor props;
     toggleWrapperProps := toggleWrapperProps props;
     actionType := actionType props |}.

(** A caller that pins the left edge of the box. *)
Definition pinnedLeftProps : IProps :=
  with_containerStyle {["left" := VNum 5]} defaultProps.

(** A caller whose [toggleWrapperProps] carries an [onPress] of its own. *)
Definition ownPressProps : IProps :=
  {| withPointer := true; height := DNum 40; width := DNum 150;
     containerStyle := ∅; pointerColor := None; pointerStyle := ∅;
     withOverlay := true; overlayColor := None;
     backgroundColor := "#617080"; highlightColor := "transparent";
     toggleWrapperProps :=
       {| wrapperOnPress := Some (Some "track"); wrapperOnLongPress := None;
          wrapperActiveOpacity := None |};
     actionType := press |}.

(** A caller that overrides the padding and tries to pin the top edge. *)
Definition pinnedTopProps : IProps :=
  with_containerStyle (<["top" := VNum 5]> {["padding" := VNum 0]}) defaultProps.

(** ** The pointer: [Triangle] and [renderPointer] *)

(** The values of the style of a [Triangle]: the scalars of a [ViewStyle]
    and the [transform] list, each entry an operation with its argument. *)
Inductive styleval : Type :=
| SScalar (v : jsval)
| STransform (ops : list (string * string)).

(** [styles.down] and [styles.triangle] of [StyleSheet.create]. *)
Definition styles_down : gmap string styleval :=
  {[ "transform" := STransform [("rotate", "180deg")] ]}.

Definition styles_triangle : gmap string styleval :=
  list_to_map
    [ ("width", SScalar (VNum 0));
      ("height", SScalar (VNum 0));
      ("backgroundColor", SScalar (VStr "transparent"));
      ("borderStyle", SScalar (VStr "solid"));
      ("borderLeftWidth", SScalar (VNum 8));
      ("borderRightWidth", SScalar (VNum 8));
      ("borderBottomWidth", SScalar (VNum 15));
      ("borderLeftColor", SScalar (VStr "transparent"));
      ("borderRightColor", SScalar (VStr "transparent"));
      ("borderBottomColor", SScalar (VStr "white")) ].

(** A style array [[a, b, c]] on a [View]: the objects are merged from left
    to right, a later one replacing the properties of the earlier ones. *)
Definition flattenStyle (styles : list (gmap string styleval)) : gmap string styleval :=
  foldl (fun acc o => o ∪ acc) ∅ styles.

(** [<View style={[styles.triangle, style, isDown ? styles.down : {}]} />] *)
Definition Triangle (style : gmap string styleval) (isDown : bool) : gmap string styleval :=
  flattenStyle [styles_triangle; style; if isDown then styles_down else ∅].

(** JavaScript truthiness of an optional string: [undefined] and the empty
    string are falsy. *)
Definition truthy_string (o : option string) : bool :=
  match o with
  | Some s => negb (String.eqb s "")
  | None => false
  end.

(** [pointerColor || backgroundColor] *)
Definition pointerColorOrBackground (props : IProps) : string :=
  match pointerColor props with
  | Some c => if truthy_string (Some c) then c else backgroundColor props
  | None => backgroundColor props
  end.

(** The [style] that [renderPointer] hands to [Triangle]:
    [{ borderBottomColor: pointerColor || backgroundColor, ...pointerStyle }]. *)
Definition pointerTriangleStyle (props : IProps) : ViewStyle :=
  pointerStyle props ∪ {[ "borderBottomColor" := VStr (pointerColorOrBackground props) ]}.

(** What [renderPointer(pastMiddleLine)] draws: the wrapper [View] with its
    style, and inside it the [Triangle] with [isDown={pastMiddleLine}]. *)
Definition renderPointer (env : Env) (props : IProps) (layout : Layout)
    (pastMiddleLine : bool) : ViewStyle * gmap string styleval :=
  (pointerViewStyle env layout pastMiddleLine,
   Triangle (SScalar <$> pointerTriangleStyle props) pastMiddleLine).

(** What [renderContent(true)] draws inside the [Modal]: the highlight
    layer, the pointer when [withPointer] is set, and the popover box. *)
Record Content : Type := {
  highlightView : ViewStyle;
  pointerView : option (ViewStyle * gmap string styleval);
  tooltipView : ViewStyle
}.

Definition renderContent (env : Env) (props : IProps) (layout : Layout) : Content :=
  let '(tooltipStyle, pastMiddleLine) := getTooltipStyle env props layout in
  {| highlightView := highlightViewStyle env props layout;
     pointerView :=
       if withPointer props
       then Some (renderPointer env props layout pastMiddleLine)
       else None;
     tooltipView := tooltipStyle |}.

(** ** Vocabulary of the run invariants *)

Definition b2n (b : bool) : nat := if b then 1 else 0.

Definition is_requestClose (ev : Event) : bool :=
  match ev with ModalRequestClose => true | _ => false end.

(** The gestures: a press or a long press on the anchor, a press on the
    overlay. *)
Definition is_press (ev : Event) : bool :=
  match ev with
  | AnchorPress | AnchorLongPress | OverlayPress => true
  | _ => false
  end.

Definition is_measureResult (ev : Event) : bool :=
  match ev with MeasureResult _ _ _ _ => true | _ => false end.

(** The measurements the timers can still cause: one per pending timer,
    and one for the timer a component not yet mounted will schedule. *)
Definition timerBudget (s : State) : nat :=
  length (timers s) + match lifecycle s with Created => 1 | _ => 0 end.

Definition with_actionType (a : ActionType) (props : IProps) : IProps :=
  {| withPointer := withPointer props; height := height props; width := width props;
     containerStyle := containerStyle props; pointerColor := pointerColor props;
     pointerStyle := pointerStyle props; withOverlay := withOverlay props;
     overlayColor := overlayColor props; backgroundColor := backgroundColor props;
     highlightColor := highlightColor props;
     toggleWrapperProps := toggleWrapperProps props; actionType := a |}.

(** A mounted, hidden component whose anchor ref is attached. *)
Definition mountedHidden : State :=
  with_lifecycle Mounted (with_current (Some 7) initialState).

(** ** Running the component's functions *)

(** Unfold a handler on a state whose fields are known and compute. *)
Ltac run_handler :=
  cbv [dispatch handle invoke toggleTooltip getElementPosition
       measureInWindow measureCallback setRenderedElementLayout setIsVisible
       onClose onOpen modalUpdate mount unmount mountEffect mountEffectCleanup
       setTimeout clearTimeout when is_mounted truthy
       mbind mret Cmd_bind Cmd_ret gets modify emit throw];
  repeat match goal with
         | H : anchorHandler _ _ = _ |- _ => rewrite H
         | H : isIOS _ = _ |- _ => rewrite H
         end;
  cbn -[Nat.leb Nat.add].

(** Settle one case of an event lemma by running the handler. *)
Ltac by_cases_on_handler :=
  do 2 eexists; (split; [run_handler; reflexivity|]);
  cbn; unfold waiting, disposed; cbn; repeat split; try lia; try discriminate.

(** Settle one case of the ref invariant by running the handler. *)
Ltac attached_case :=
  do 2 eexists; (split; [run_handler; reflexivity|]);
  unfold attached; cbn;
  (split; [try discriminate; try (intros _; eexists; reflexivity)|try lia]).

(** Settle one case of the event facts by running the handler. *)
Ltac facts_case :=
  do 2 eexists; (split; [run_handler; reflexivity|]);
  unfold timerBudget; cbn; repeat split; try lia; try discriminate;
  try (intros Hpress; discriminate Hpress);
  try (intros _; unfold opens;
       repeat match goal with
              | H : anchorHandler _ _ = _ |- _ => rewrite H
              end;
       cbn; rewrite ?andb_false_r; reflexivity).

Lemma getElementPosition_run (s : State) :
  getElementPosition s = Ok tt (measured s) (measureRequest s).
Proof.
  destruct s as [v l [tag|] n lc t ts nid et]; reflexivity.
Qed.

Lemma toggleTooltip_run (env : Env) (s : State) :
  toggleTooltip env s =
  Ok tt (with_isVisible (negb (isVisible s)) (measured s))
     (measureRequest s
        ++ (if isVisible s && negb (isIOS env) then [ECallOnClose] else [])
        ++ [ESetIsVisible (negb (isVisible s))]).
Proof.
  destruct s as [[] l [tag|] n lc t ts nid et], (isIOS env) eqn:Hios;
    unfold toggleTooltip, mbind, Cmd_bind; rewrite getElementPosition_run;
    cbn; unfold when; cbn; rewrite ?Hios; reflexivity.
Qed.

Lemma measured_isVisible (s : State) : isVisible (measured s) = isVisible s.
Proof. unfold measured. destruct (current s); reflexivity. Qed.

Lemma count_app (p : Effect -> bool) (a b : list Effect) :
  count p (a ++ b) = count p a + count p b.
Proof. unfold count. rewrite List.filter_app, length_app. reflexivity. Qed.

Lemma count_measureRequest_other (p : Effect -> bool) (s : State) :
  (forall tag, p (EMeasureInWindow tag) = false) ->
  count p (measureRequest s) = 0.
Proof.
  intros Hp. unfold measureRequest, count.
  destruct (current s) as [tag|]; cbn; [rewrite Hp|]; reflexivity.
Qed.

(** ** The toggle *)

(** C2: the toggle itself calls [onClose] exactly when the overlay is visible
    and the platform is not iOS; the call is the last thing it does before
    [setIsVisible(false)], it happens at most once, and never when the toggle
    opens the overlay. *)
Theorem toggleTooltip_onClose (env : Env) (s : State) :
  exists s',
    toggleTooltip env s =
      Ok tt s'
         (measureRequest s
            ++ (if isVisible s && negb (isIOS env) then [ECallOnClose] else [])
            ++ [ESetIsVisible (negb (isVisible s))])
    /\ (In ECallOnClose (output (toggleTooltip env s))
        <-> isVisible s = true /\ isIOS env = false)
    /\ count is_onClose (output (toggleTooltip env s))
       = (if isVisible s && negb (isIOS env) then 1 else 0)
    /\ (isVisible s = false -> ~ In ECallOnClose (output (toggleTooltip env s))).
Proof.
  rewrite toggleTooltip_run. eexists. split; [reflexivity|].
  cbn [output].
  assert (Hin : In ECallOnClose
                  (measureRequest s
                     ++ (if isVisible s && negb (isIOS env) then [ECallOnClose] else [])
                     ++ [ESetIsVisible (negb (isVisible s))])
                <-> isVisible s = true /\ isIOS env = false).
  { rewrite !in_app_iff. unfold measureRequest.
    destruct (current s) as [tag|], (isVisible s), (isIOS env); cbn;
      intuition congruence. }
  split; [exact Hin|]. split.
  - rewrite !count_app, count_measureRequest_other by reflexivity.
    destruct (isVisible s), (isIOS env); reflexivity.
  - intros Hv Hc. apply Hin in Hc. destruct Hc as [Hc _]. congruence.
Qed.

(** C10: one toggle flips the visibility flag, two toggles restore it; the
    flag starts out hidden. *)
Theorem toggleTooltip_involution (env : Env) (s : State) :
  isVisible initialState = false /\
  exists s1 o1 s2 o2,
    toggleTooltip env s = Ok tt s1 o1
    /\ isVisible s1 = negb (isVisible s)
    /\ toggleTooltip env s1 = Ok tt s2 o2
    /\ isVisible s2 = isVisible s.
Proof.
  split; [reflexivity|].
  do 4 eexists. rewrite toggleTooltip_run.
  split; [reflexivity|]. split.
  - cbn. rewrite ?measured_isVisible. reflexivity.
  - rewrite toggleTooltip_run. split; [reflexivity|].
    cbn. rewrite ?measured_isVisible. cbn. rewrite ?measured_isVisible.
    apply negb_involutive.
Qed.

(** ** Measuring the anchor *)

(** Without the guard the native call would fail on a detached ref. *)
Lemma measureInWindow_detached (s : State) :
  current s = None -> exists e, measureInWindow s = Throw e.
Proof.
  intros Hcur. destruct s as [v l cur n lc t ts nid et]; cbn in Hcur; subst cur.
  eexists. reflexivity.
Qed.

(** C6: with the anchor ref detached, [getElementPosition] returns normally
    (nothing is thrown), leaves the whole state, the stored layout included,
    exactly as it was, and emits no effect. *)
Theorem getElementPosition_detached (s : State) :
  current s = None ->
  getElementPosition s = Ok tt s [].
Proof.
  intros Hcur. rewrite getElementPosition_run.
  unfold measured, measureRequest. rewrite Hcur. reflexivity.
Qed.

Lemma getElementPosition_detached_initial :
  getElementPosition initialState = Ok tt initialState [].
Proof. apply (getElementPosition_detached initialState). reflexivity. Defined.

(** ** Styles *)

Lemma computedStyle_horizontal (env : Env) (props : IProps) (layout : Layout) :
  horizontal (isRTL env) (x (tooltipCoordinate env props layout))
             (computedStyle env props layout).
Proof.
  unfold horizontal, unset, computedStyle.
  destruct (isRTL env); split; try reflexivity; right; reflexivity.
Qed.

(** [getTooltipStyle] is the merge followed by one write of the placed edge. *)
Lemma getTooltipStyle_fst (env : Env) (props : IProps) (layout : Layout) :
  fst (getTooltipStyle env props layout)
  = <[placedEdge env props layout := VNum (placedValue env props layout)]>
      (mergedStyle env props layout).
Proof.
  unfold placedEdge, placedValue, getTooltipStyle. cbn [fst snd].
  destruct (typeof_number (height props)),
           (y (tooltipCoordinate env props layout) <? yOffset layout)%float;
    reflexivity.
Qed.

Lemma placedEdge_cases (env : Env) (props : IProps) (layout : Layout) :
  placedEdge env props layout = "top" \/ placedEdge env props layout = "bottom".
Proof. unfold placedEdge. destruct (_ && _); [right | left]; reflexivity. Qed.

Lemma getTooltipStyle_lookup_other
    (env : Env) (props : IProps) (layout : Layout) (k : string) :
  k <> placedEdge env props layout ->
  fst (getTooltipStyle env props layout) !! k = mergedStyle env props layout !! k.
Proof.
  intros Hk. rewrite getTooltipStyle_fst. apply lookup_insert_ne. congruence.
Qed.

(** The float comparison is irreflexive (a NaN included). *)
Lemma float_ltb_irrefl (a : float) : (a <? a)%float = false.
Proof.
  rewrite ltb_spec. unfold SFltb.
  destruct (Prim2SF a) as [sg|sg| |sg m e]; cbn; try reflexivity.
  - destruct sg; reflexivity.
  - destruct sg; rewrite Z.compare_refl, Pos.compare_refl; reflexivity.
Qed.

(** C3: the flip flag that [getTooltipStyle] returns is true exactly when the
    anchor's [yOffset] is strictly greater than the [y] the engine returned:
    it is the float test [y < yOffset], that is, [y] compares below
    [yOffset] in the IEEE order, and it is false when the two are equal. *)
Theorem pastMiddleLine_spec (env : Env) (props : IProps) (layout : Layout) :
  let c := tooltipCoordinate env props layout in
  let pastMiddleLine := snd (getTooltipStyle env props layout) in
  (pastMiddleLine = true <-> (y c <? yOffset layout)%float = true)
  /\ (pastMiddleLine = true
      <-> SFcompare (Prim2SF (y c)) (Prim2SF (yOffset layout)) = Some Lt)
  /\ (y c = yOffset layout -> pastMiddleLine = false).
Proof.
  intros c pastMiddleLine.
  assert (Hdef : pastMiddleLine = (y c <? yOffset layout)%float) by reflexivity.
  split; [rewrite Hdef; reflexivity|]. split.
  - rewrite Hdef, ltb_spec. unfold SFltb.
    destruct (SFcompare (Prim2SF (y c)) (Prim2SF (yOffset layout))) as [[]|];
      split; intros H; try reflexivity; discriminate H.
  - intros Heq. rewrite Hdef, Heq. apply float_ltb_irrefl.
Qed.

(** Strictness: an engine answer equal to the anchor's offset does not flip. *)
Example pastMiddleLine_equal_offsets :
  snd (getTooltipStyle
         {| isIOS := false; isRTL := false; ScreenWidth := 400;
            ScreenHeight := 800; getTooltipCoordinate := engineOnAnchor |}
         defaultProps lowAnchor) = false.
Proof. reflexivity. Qed.

Example pastMiddleLine_above :
  snd (getTooltipStyle (sampleEnv false false) defaultProps lowAnchor) = true.
Proof. reflexivity. Qed.

Lemma getTooltipStyle_placed (env : Env) (props : IProps) (layout : Layout) :
  fst (getTooltipStyle env props layout) !! placedEdge env props layout
  = Some (VNum (placedValue env props layout)).
Proof. rewrite getTooltipStyle_fst. apply lookup_insert_eq. Qed.

(** C4, as the code has it: when the flip flag is set and the height is a
    number [h], [top] is the engine's [y] minus [h]; when the flag is set and
    the height is not a number, [bottom] is [ScreenHeight] minus the engine's
    [y]; when the flag is not set, [top] is the engine's [y].  Whatever
    [containerStyle] holds under that key is overwritten. *)
Theorem getTooltipStyle_vertical_edge (env : Env) (props : IProps) (layout : Layout) :
  let c := tooltipCoordinate env props layout in
  let style := fst (getTooltipStyle env props layout) in
  let pastMiddleLine := snd (getTooltipStyle env props layout) in
  (forall h, pastMiddleLine = true -> height props = DNum h ->
     style !! "top" = Some (VNum (y c - h)%float))
  /\ (forall s, pastMiddleLine = true -> height props = DStr s ->
     style !! "bottom" = Some (VNum (ScreenHeight env - y c)%float))
  /\ (pastMiddleLine = false -> style !! "top" = Some (VNum (y c))).
Proof.
  intros c style pastMiddleLine.
  pose proof (getTooltipStyle_placed env props layout) as Hp.
  unfold placedEdge, placedValue in Hp.
  fold c style pastMiddleLine in Hp.
  repeat split.
  - intros h Hpast Hh. rewrite Hpast, Hh in Hp. exact Hp.
  - intros str Hpast Hh. rewrite Hpast, Hh in Hp. exact Hp.
  - intros Hpast. rewrite Hpast, andb_false_r in Hp. exact Hp.
Qed.

Lemma getTooltipStyle_vertical_edge_sample :
  fst (getTooltipStyle (sampleEnv false false) defaultProps lowAnchor) !! "top"
    = Some (VNum 650)
  /\ fst (getTooltipStyle (sampleEnv false false)
            (with_height (DStr "50%") defaultProps) lowAnchor) !! "bottom"
    = Some (VNum 110).
Proof.
  split.
  - exact (proj1 (getTooltipStyle_vertical_edge (sampleEnv false false)
                    defaultProps lowAnchor) 40%float eq_refl eq_refl).
  - exact (proj1 (proj2 (getTooltipStyle_vertical_edge (sampleEnv false false)
                    (with_height (DStr "50%") defaultProps) lowAnchor))
                 "50%" eq_refl eq_refl).
Defined.

(** C4 as stated fails: for the anchor at [yOffset = 700] and a popover of
    fixed height 40 the flip flag is set, and [top] is 650, not
    [700 - 40]; with a proportional height [bottom] is 110, not
    [800 - 700]. *)
Lemma getTooltipStyle_not_anchor_offset :
  snd (getTooltipStyle (sampleEnv false false) defaultProps lowAnchor) = true
  /\ height defaultProps = DNum 40
  /\ fst (getTooltipStyle (sampleEnv false false) defaultProps lowAnchor) !! "top"
     <> Some (VNum (yOffset lowAnchor - 40)%float)
  /\ snd (getTooltipStyle (sampleEnv false false)
            (with_height (DStr "50%") defaultProps) lowAnchor) = true
  /\ fst (getTooltipStyle (sampleEnv false false)
            (with_height (DStr "50%") defaultProps) lowAnchor) !! "bottom"
     <> Some (VNum (ScreenHeight (sampleEnv false false) - yOffset lowAnchor)%float).
Proof.
  repeat split; try reflexivity.
  - pose proof (getTooltipStyle_placed (sampleEnv false false) defaultProps
                  lowAnchor) as Hp.
    change (placedEdge _ _ _) with "top" in Hp. rewrite Hp.
    intros Heq.
    apply (f_equal (fun o => match o with
                             | Some (VNum v) => (v =? 650)%float
                             | _ => false
                             end)) in Heq.
    vm_compute in Heq. discriminate.
  - pose proof (getTooltipStyle_placed (sampleEnv false false)
                  (with_height (DStr "50%") defaultProps) lowAnchor) as Hp.
    change (placedEdge _ _ _) with "bottom" in Hp. rewrite Hp.
    intros Heq.
    apply (f_equal (fun o => match o with
                             | Some (VNum v) => (v =? 110)%float
                             | _ => false
                             end)) in Heq.
    vm_compute in Heq. discriminate.
Qed.

(** C5, as the code has it: the horizontal coordinate goes to [right] under
    right-to-left and to [left] under left-to-right, the other of the two
    being unset, with the same value in both directions: always for the
    pointer and for the highlight layer over the anchor; for the tooltip box
    in each of [left] and [right] that the caller's [containerStyle] does
    not set, a [left] or [right] of [containerStyle] being merged after the
    computed entry and standing in its place. *)
Theorem horizontal_mirroring
    (env : Env) (props : IProps) (layout : Layout) (pastMiddleLine rtl : bool) :
  let coordinate := x (tooltipCoordinate env props layout) in
  let style := fst (getTooltipStyle (with_isRTL rtl env) props layout) in
  style !! "left"
    = Some match containerStyle props !! "left" with
           | Some given => given
           | None => if rtl then VUndefined else VNum coordinate
           end
  /\ style !! "right"
    = Some match containerStyle props !! "right" with
           | Some given => given
           | None => if rtl then VNum coordinate else VUndefined
           end
  /\ (containerStyle props !! "left" = None ->
      containerStyle props !! "right" = None ->
      horizontal rtl coordinate style)
  /\ horizontal rtl coordinate (computedStyle (with_isRTL rtl env) props layout)
  /\ horizontal rtl (xOffset layout + elementWidth layout / 2 - 7.5)%float
                (pointerViewStyle (with_isRTL rtl env) layout pastMiddleLine)
  /\ horizontal rtl (xOffset layout)
                (highlightViewStyle (with_isRTL rtl env) props layout).
Proof.
  intros coordinate style.
  pose proof (computedStyle_horizontal (with_isRTL rtl env) props layout) as Hc.
  cbn [isRTL with_isRTL] in Hc. fold coordinate in Hc.
  assert (Hl : style !! "left"
               = Some match containerStyle props !! "left" with
                      | Some given => given
                      | None => if rtl then VUndefined else VNum coordinate
                      end).
  { unfold style.
    destruct (placedEdge_cases (with_isRTL rtl env) props layout) as [He|He];
      rewrite getTooltipStyle_lookup_other by (rewrite He; discriminate);
      unfold mergedStyle; rewrite lookup_union;
      destruct (containerStyle props !! "left"); destruct rtl; reflexivity. }
  assert (Hr : style !! "right"
               = Some match containerStyle props !! "right" with
                      | Some given => given
                      | None => if rtl then VNum coordinate else VUndefined
                      end).
  { unfold style.
    destruct (placedEdge_cases (with_isRTL rtl env) props layout) as [He|He];
      rewrite getTooltipStyle_lookup_other by (rewrite He; discriminate);
      unfold mergedStyle; rewrite lookup_union;
      destruct (containerStyle props !! "right"); destruct rtl; reflexivity. }
  split; [exact Hl|]. split; [exact Hr|]. split; [|split; [exact Hc|split]].
  - intros Hleft Hright. rewrite Hleft in Hl. rewrite Hright in Hr.
    unfold horizontal, unset. rewrite Hl, Hr.
    destruct rtl; split; try reflexivity; right; reflexivity.
  - unfold horizontal, unset, pointerViewStyle. cbn [isRTL with_isRTL].
    destruct rtl; split; try reflexivity; right; reflexivity.
  - unfold horizontal, unset, highlightViewStyle. cbn [isRTL with_isRTL].
    destruct rtl; split; try reflexivity; right; reflexivity.
Qed.

Lemma horizontal_mirroring_sample :
  horizontal true 10
    (fst (getTooltipStyle (sampleEnv false true) defaultProps lowAnchor))
  /\ horizontal false 10
    (fst (getTooltipStyle (sampleEnv false false) defaultProps lowAnchor)).
Proof.
  split.
  - exact (proj1 (proj2 (proj2 (horizontal_mirroring (sampleEnv false false)
                                  defaultProps lowAnchor true true)))
                 eq_refl eq_refl).
  - exact (proj1 (proj2 (proj2 (horizontal_mirroring (sampleEnv false false)
                                  defaultProps lowAnchor true false)))
                 eq_refl eq_refl).
Defined.

(** C5 as stated fails for the tooltip box: under right-to-left, with the
    caller's [containerStyle] holding [left: 5], the style that comes out has
    [left] 5 beside [right] 10, so [left] is not unset. *)
Lemma containerStyle_left_not_unset :
  isRTL (sampleEnv false true) = true
  /\ fst (getTooltipStyle (sampleEnv false true) pinnedLeftProps lowAnchor) !! "left"
     = Some (VNum 5)
  /\ fst (getTooltipStyle (sampleEnv false true) pinnedLeftProps lowAnchor) !! "right"
     = Some (VNum 10)
  /\ ~ unset (fst (getTooltipStyle (sampleEnv false true) pinnedLeftProps lowAnchor)
                !! "left")
  /\ ~ horizontal true 10
         (fst (getTooltipStyle (sampleEnv false true) pinnedLeftProps lowAnchor)).
Proof.
  assert (Hl : fst (getTooltipStyle (sampleEnv false true) pinnedLeftProps lowAnchor)
                 !! "left" = Some (VNum 5)) by reflexivity.
  assert (Hu : ~ unset (fst (getTooltipStyle (sampleEnv false true)
                               pinnedLeftProps lowAnchor) !! "left")).
  { rewrite Hl. intros [Hn|Hn]; discriminate Hn. }
  split; [reflexivity|]. split; [exact Hl|]. split; [reflexivity|].
  split; [exact Hu|]. intros [_ Hh]. exact (Hu Hh).
Qed.

(** C9, as the code has it: [containerStyle] is merged over the computed
    style and wins for every property it sets, except the one vertical edge
    that the placement writes after the merge ([bottom] when flipped with a
    non-numeric height, [top] otherwise), where the computed value stands
    whatever the caller supplied. *)
Theorem containerStyle_override
    (env : Env) (props : IProps) (layout : Layout) (k : string) (v : jsval) :
  containerStyle props !! k = Some v ->
  k <> placedEdge env props layout ->
  fst (getTooltipStyle env props layout) !! k = Some v
  /\ fst (getTooltipStyle env props layout) !! placedEdge env props layout
     = Some (VNum (placedValue env props layout)).
Proof.
  intros Hk Hne. split.
  - rewrite getTooltipStyle_lookup_other by exact Hne.
    unfold mergedStyle. apply lookup_union_Some_l, Hk.
  - apply getTooltipStyle_placed.
Qed.

Lemma containerStyle_override_sample :
  fst (getTooltipStyle (sampleEnv false false) pinnedTopProps lowAnchor) !! "padding"
  = Some (VNum 0).
Proof.
  refine (proj1 (containerStyle_override (sampleEnv false false) pinnedTopProps
                   lowAnchor "padding" (VNum 0) eq_refl _)).
  discriminate.
Defined.

(** C9 as stated fails for [top]: the caller sets [top: 5], the style that
    comes out has [top] 650. *)
Lemma containerStyle_top_overwritten :
  containerStyle pinnedTopProps !! "top" = Some (VNum 5)
  /\ fst (getTooltipStyle (sampleEnv false false) pinnedTopProps lowAnchor) !! "top"
     = Some (VNum 650)
  /\ fst (getTooltipStyle (sampleEnv false false) pinnedTopProps lowAnchor) !! "top"
     <> containerStyle pinnedTopProps !! "top".
Proof.
  pose proof (getTooltipStyle_placed (sampleEnv false false) pinnedTopProps
                lowAnchor) as Hp.
  change (placedEdge _ _ _) with "top" in Hp.
  change (placedValue _ _ _) with 650%float in Hp.
  split; [reflexivity|]. split; [exact Hp|].
  rewrite Hp. intros Heq.
  apply (f_equal (fun o => match o with
                           | Some (VNum v) => (v =? 650)%float
                           | _ => false
                           end)) in Heq.
  vm_compute in Heq. discriminate.
Qed.

(** ** Events *)

Lemma bind_Ok {A B : Type} (c : Cmd A) (k : A -> Cmd B) (s s1 : State)
    (a : A) (o1 : list Effect) :
  c s = Ok a s1 o1 ->
  (c ≫= k) s = match k a s1 with
               | Ok b s2 o2 => Ok b s2 (o1 ++ o2)
               | Throw e => Throw e
               end.
Proof. intros Hc. unfold mbind, Cmd_bind. rewrite Hc. reflexivity. Qed.

Lemma run_cons (env : Env) (props : IProps) (ev : Event) (evs : list Event)
    (s s1 : State) (o1 : list Effect) :
  dispatch env props ev s = Ok tt s1 o1 ->
  run env props (ev :: evs) s
  = match run env props evs s1 with
    | Ok b s2 o2 => Ok b s2 (o1 ++ o2)
    | Throw e => Throw e
    end.
Proof.
  intros Hd. cbn [run].
  exact (bind_Ok (dispatch env props ev) (fun _ => run env props evs) s s1 tt o1 Hd).
Qed.

Lemma run_app (env : Env) (props : IProps) (evs1 evs2 : list Event)
    (s s1 : State) (o1 : list Effect) :
  run env props evs1 s = Ok tt s1 o1 ->
  run env props (evs1 ++ evs2) s
  = match run env props evs2 s1 with
    | Ok b s2 o2 => Ok b s2 (o1 ++ o2)
    | Throw e => Throw e
    end.
Proof.
  revert s s1 o1. induction evs1 as [|ev evs1 IH]; intros s s1 o1 Hrun.
  - cbn in Hrun. injection Hrun as <- <-. cbn [app].
    destruct (run env props evs2 s); reflexivity.
  - cbn [run app] in *. unfold mbind, Cmd_bind in *.
    destruct (dispatch env props ev s) as [[] sa oa|e]; [|discriminate].
    destruct (run env props evs1 sa) as [[] sb ob|e] eqn:Hrest; [|discriminate].
    injection Hrun as <- <-.
    rewrite (IH _ _ _ Hrest).
    destruct (run env props evs2 sb) as [[] sc oc|e]; [|reflexivity].
    rewrite app_assoc. reflexivity.
Qed.

(** Expired timers only measure. *)
Lemma runTimers_run (expired : list Timer) (s : State) :
  exists s' out,
    runTimers expired s = Ok tt s' out
    /\ isVisible s' = isVisible s
    /\ lifecycle s' = lifecycle s
    /\ count is_onOpen out = 0
    /\ count is_onClose out = 0.
Proof.
  revert s. induction expired as [|t rest IH]; intros s.
  - do 2 eexists. cbn. repeat split.
  - cbn [runTimers].
    destruct (IH (measured s)) as (s' & out & Hrun & Hv & Hl & Ho & Hc).
    exists s', (measureRequest s ++ out).
    rewrite (bind_Ok _ _ _ _ _ _ (getElementPosition_run s)), Hrun.
    rewrite !count_app, Ho, Hc, !count_measureRequest_other by reflexivity.
    rewrite Hv, Hl, measured_isVisible.
    repeat split. unfold measured. destruct (current s); reflexivity.
Qed.

Lemma elapse_run (ms : nat) (s s' : State) (out : list Effect) :
  runTimers (List.filter (fun tm => due tm <=? now s + ms) (timers s))
    (with_timers (List.filter (fun tm => negb (due tm <=? now s + ms)) (timers s))
       (with_now (now s + ms) s)) = Ok tt s' out ->
  elapse ms s = Ok tt s' out.
Proof.
  intros Hrun. unfold elapse, mbind, Cmd_bind, gets, modify.
  cbn [timers now with_now with_timers].
  rewrite Hrun. reflexivity.
Qed.

(** A handler that returns is followed by the [Modal]'s reaction. *)
Lemma dispatch_run (env : Env) (props : IProps) (ev : Event)
    (s s1 : State) (o1 : list Effect) :
  handle env props ev s = Ok tt s1 o1 ->
  dispatch env props ev s
  = Ok tt s1 (o1 ++ modalCalls env (isVisible s) (isVisible s1)).
Proof.
  intros Hh. unfold dispatch, mbind, Cmd_bind, gets. rewrite Hh.
  unfold modalUpdate, modalCalls, when, onOpen, onClose, emit, mret, Cmd_ret.
  destruct (isVisible s), (isVisible s1), (isIOS env); reflexivity.
Qed.

Lemma handle_elapse (env : Env) (props : IProps) (ms : nat)
    (s s' : State) (out : list Effect) :
  elapse ms s = Ok tt s' out ->
  handle env props (Elapse ms) s = Ok tt s' out.
Proof.
  intros He. unfold handle, mbind, Cmd_bind, gets. rewrite He. reflexivity.
Qed.

(** A press that is bound to the toggle runs it. *)
Lemma handle_toggle (env : Env) (props : IProps) (ev : Event) (s : State) :
  is_mounted s = true ->
  (if isVisible s then closes props ev
   else opens props ev) = true ->
  handle env props ev s
  = Ok tt (with_isVisible (negb (isVisible s)) (measured s)) (toggleEffects env s).
Proof.
  intros Hm Hev.
  pose proof (toggleTooltip_run env s) as Ht. fold (toggleEffects env s) in Ht.
  unfold handle, mbind, Cmd_bind, gets. rewrite Hm.
  unfold closes, opens in Hev.
  destruct (anchorHandler props ev) as [[|name]|] eqn:Ha,
           (isVisible s) eqn:Hv, ev;
    try discriminate Hev; try discriminate Ha;
    cbn; rewrite Ht; reflexivity.
Qed.

(** An idle event leaves the visibility alone and calls neither callback. *)
Lemma dispatch_idle (env : Env) (props : IProps) (ev : Event) (s : State) :
  idle ev = true ->
  exists s' out,
    dispatch env props ev s = Ok tt s' out
    /\ isVisible s' = isVisible s
    /\ lifecycle s' = lifecycle s
    /\ count is_onOpen out = 0
    /\ count is_onClose out = 0.
Proof.
  intros Hidle. destruct ev; try discriminate.
  - (* Elapse *)
    destruct (runTimers_run
                (List.filter (fun tm => due tm <=? now s + ms) (timers s))
                (with_timers
                   (List.filter (fun tm => negb (due tm <=? now s + ms)) (timers s))
                   (with_now (now s + ms) s)))
      as (s' & out & Hrun & Hv & Hl & Ho & Hc).
    cbn in Hv, Hl.
    exists s', (out ++ modalCalls env (isVisible s) (isVisible s')).
    split.
    { apply dispatch_run, handle_elapse, elapse_run, Hrun. }
    rewrite Hv, !count_app, Ho, Hc. unfold modalCalls.
    destruct (isVisible s); repeat split; assumption.
  - (* MeasureResult *)
    destruct s as [v l cur [|n] lc t ts nid et], v;
      do 2 eexists; cbn; repeat split.
Qed.

Lemma run_idle (env : Env) (props : IProps) (evs : list Event) (s : State) :
  forallb idle evs = true ->
  exists s' out,
    run env props evs s = Ok tt s' out
    /\ isVisible s' = isVisible s
    /\ lifecycle s' = lifecycle s
    /\ count is_onOpen out = 0
    /\ count is_onClose out = 0.
Proof.
  revert s. induction evs as [|ev evs IH]; intros s Hall.
  - do 2 eexists. cbn. repeat split.
  - cbn [forallb] in Hall. apply andb_prop in Hall as [Hev Hall].
    destruct (dispatch_idle env props ev s Hev) as (s1 & o1 & Hd & Hv1 & Hl1 & Ho1 & Hc1).
    destruct (IH s1 Hall) as (s2 & o2 & Hr & Hv2 & Hl2 & Ho2 & Hc2).
    exists s2, (o1 ++ o2). rewrite (run_cons _ _ _ _ _ _ _ Hd), Hr.
    rewrite !count_app, Ho1, Ho2, Hc1, Hc2. repeat split; congruence.
Qed.

Lemma measured_lifecycle (s : State) : lifecycle (measured s) = lifecycle s.
Proof. unfold measured. destruct (current s); reflexivity. Qed.

Lemma is_mounted_lifecycle (s s' : State) :
  lifecycle s' = lifecycle s -> is_mounted s' = is_mounted s.
Proof. unfold is_mounted. intros ->. reflexivity. Qed.

(** A press bound to the toggle flips the visibility; opening calls [onOpen]
    once and [onClose] not at all, closing calls [onClose] once (by the
    toggle off iOS, by the [Modal] on iOS) and [onOpen] not at all. *)
Lemma dispatch_toggle (env : Env) (props : IProps) (ev : Event) (s : State) :
  is_mounted s = true ->
  (if isVisible s then closes props ev
   else opens props ev) = true ->
  exists s' out,
    dispatch env props ev s = Ok tt s' out
    /\ isVisible s' = negb (isVisible s)
    /\ lifecycle s' = lifecycle s
    /\ count is_onOpen out = (if isVisible s then 0 else 1)
    /\ count is_onClose out = (if isVisible s then 1 else 0).
Proof.
  intros Hm Hev. do 2 eexists. split.
  { apply dispatch_run, handle_toggle; assumption. }
  cbn [isVisible lifecycle with_isVisible].
  rewrite measured_lifecycle. split; [reflexivity|]. split; [reflexivity|].
  unfold toggleEffects, modalCalls.
  rewrite !count_app, !count_measureRequest_other by reflexivity.
  destruct (isVisible s), (isIOS env); split; reflexivity.
Qed.

(** C1, as the code has it: a cycle made of the opening gesture on the
    anchor and a closing press, with any idle events (time passing,
    measurements arriving) in between and after, starts hidden, ends hidden,
    and calls [onOpen] exactly once and [onClose] exactly once, on either
    platform. *)
Theorem press_cycle_callbacks
    (env : Env) (props : IProps) (s : State)
    (opening closing : Event) (between after : list Event) :
  is_mounted s = true ->
  isVisible s = false ->
  opens props opening = true ->
  closes props closing = true ->
  forallb idle between = true ->
  forallb idle after = true ->
  exists s' out,
    run env props (opening :: between ++ closing :: after) s = Ok tt s' out
    /\ isVisible s' = false
    /\ count is_onOpen out = 1
    /\ count is_onClose out = 1.
Proof.
  intros Hm Hv Hopen Hclose Hbetween Hafter.
  destruct (dispatch_toggle env props opening s Hm) as (s1 & o1 & Hd1 & Hv1 & Hl1 & Ho1 & Hc1).
  { rewrite Hv. exact Hopen. }
  rewrite Hv in Hv1, Ho1, Hc1. cbn in Hv1.
  destruct (run_idle env props between s1 Hbetween) as (s2 & o2 & Hr2 & Hv2 & Hl2 & Ho2 & Hc2).
  assert (Hm2 : is_mounted s2 = true).
  { rewrite (is_mounted_lifecycle s1 s2 Hl2), (is_mounted_lifecycle s s1 Hl1). exact Hm. }
  rewrite Hv1 in Hv2.
  destruct (dispatch_toggle env props closing s2 Hm2) as (s3 & o3 & Hd3 & Hv3 & Hl3 & Ho3 & Hc3).
  { rewrite Hv2. exact Hclose. }
  rewrite Hv2 in Hv3, Ho3, Hc3. cbn in Hv3.
  destruct (run_idle env props after s3 Hafter) as (s4 & o4 & Hr4 & Hv4 & Hl4 & Ho4 & Hc4).
  exists s4, (o1 ++ o2 ++ o3 ++ o4).
  split.
  { rewrite (run_cons _ _ _ _ _ _ _ Hd1), (run_app _ _ _ _ _ _ _ Hr2),
      (run_cons _ _ _ _ _ _ _ Hd3), Hr4. reflexivity. }
  rewrite !count_app, Ho1, Ho2, Ho3, Ho4, Hc1, Hc2, Hc3, Hc4.
  repeat split. congruence.
Qed.

Lemma press_cycle_callbacks_sample :
  exists s' out,
    run (sampleEnv false false) defaultProps
        (AnchorPress :: [Elapse 500] ++ OverlayPress :: [])
        (with_lifecycle Mounted (with_current (Some 7) initialState))
    = Ok tt s' out
    /\ isVisible s' = false
    /\ count is_onOpen out = 1
    /\ count is_onClose out = 1.
Proof.
  apply (press_cycle_callbacks (sampleEnv false false) defaultProps
           (with_lifecycle Mounted (with_current (Some 7) initialState))
           AnchorPress OverlayPress [Elapse 500] []); reflexivity.
Defined.

(** C1 as stated fails on the request-close path: the [Modal]'s
    [onRequestClose] calls [onClose] and leaves the overlay visible, so the
    press that then hides it calls [onClose] a second time within the same
    cycle. *)
Lemma request_close_cycle_calls_onClose_twice :
  exists s1 o1 s2 o2,
    run (sampleEnv false false) defaultProps
        [Mount 7; AnchorPress; ModalRequestClose] initialState = Ok tt s1 o1
    /\ isVisible s1 = true
    /\ count is_onClose o1 = 1
    /\ run (sampleEnv false false) defaultProps
        [Mount 7; AnchorPress; ModalRequestClose; OverlayPress] initialState
       = Ok tt s2 o2
    /\ isVisible s2 = false
    /\ count is_onOpen o2 = 1
    /\ count is_onClose o2 = 2.
Proof. do 4 eexists. repeat split. Qed.

(** ** The mount effect *)

Lemma dispatch_waiting (env : Env) (props : IProps) (tag : nat) (ev : Event) (s : State) :
  waiting tag s ->
  is_unmount ev = false ->
  now s + elapsed [ev] < 500 ->
  exists s' out,
    dispatch env props ev s = Ok tt s' out
    /\ waiting tag s'
    /\ now s' = now s + elapsed [ev]
    /\ count is_measure out = count is_setVisible out
    /\ (idle ev = true -> pendingMeasure s = 0 ->
        out = [] /\ pendingMeasure s' = 0
        /\ renderedElementLayout s' = renderedElementLayout s).
Proof.
  intros (Hl & Hcur & Hts & Het) Hnu Hlt.
  destruct s as [v l cur n lc t ts nid et]. cbn in Hl, Hcur, Hts, Het, Hlt.
  subst lc cur ts et.
  destruct ev; try discriminate Hnu.
  - (* Mount *) destruct v; by_cases_on_handler.
  - (* Elapse *)
    cbn [elapsed] in Hlt. rewrite Nat.add_0_r in Hlt.
    assert (Hleb : (500 <=? t + ms) = false) by (apply Nat.leb_gt; exact Hlt).
    exists {| isVisible := v; renderedElementLayout := l; current := Some tag;
              pendingMeasure := n; lifecycle := Mounted; now := t + ms;
              timers := [{| timer_id := 1; due := 500 |}]; nextTimerId := nid;
              effectTimeout := Some 1 |}, (@nil Effect ++ modalCalls env v v).
    split.
    { apply dispatch_run, handle_elapse, elapse_run.
      cbn -[Nat.leb Nat.add]. rewrite Hleb. reflexivity. }
    unfold waiting, modalCalls. destruct v; cbn; repeat split; lia.
  - (* MeasureResult *)
    destruct n as [|n], v; by_cases_on_handler.
  - destruct (anchorHandler props AnchorPress) as [[|name]|] eqn:Ha, v, (isIOS env) eqn:Hios; by_cases_on_handler.
  - destruct (anchorHandler props AnchorLongPress) as [[|name]|] eqn:Ha, v, (isIOS env) eqn:Hios; by_cases_on_handler.
  - destruct v, (isIOS env) eqn:Hios; by_cases_on_handler.
  - destruct v, (isIOS env) eqn:Hios; by_cases_on_handler.
Qed.

Lemma dispatch_unmount (env : Env) (props : IProps) (tag : nat) (s : State) :
  waiting tag s ->
  exists s',
    dispatch env props Unmount s = Ok tt s' []
    /\ disposed s'
    /\ pendingMeasure s' = pendingMeasure s
    /\ renderedElementLayout s' = renderedElementLayout s.
Proof.
  intros (Hl & Hcur & Hts & Het).
  destruct s as [v l cur n lc t ts nid et]. cbn in Hl, Hcur, Hts, Het.
  subst lc cur ts et.
  destruct v; eexists; (split; [run_handler; reflexivity|]);
    cbn; unfold disposed; cbn; repeat split.
Qed.

Lemma dispatch_disposed (env : Env) (props : IProps) (ev : Event) (s : State) :
  disposed s ->
  exists s' out,
    dispatch env props ev s = Ok tt s' out
    /\ disposed s'
    /\ count is_measure out = 0
    /\ count is_setVisible out = 0
    /\ (pendingMeasure s = 0 ->
        out = [] /\ pendingMeasure s' = 0
        /\ renderedElementLayout s' = renderedElementLayout s).
Proof.
  intros (Hl & Hcur & Hts).
  destruct s as [v l cur n lc t ts nid et]. cbn in Hl, Hcur, Hts.
  subst lc cur ts.
  destruct ev.
  - destruct v; by_cases_on_handler.
  - destruct v; by_cases_on_handler.
  - exists {| isVisible := v; renderedElementLayout := l; current := None;
              pendingMeasure := n; lifecycle := Disposed; now := t + ms;
              timers := []; nextTimerId := nid;
              effectTimeout := et |}, (@nil Effect ++ modalCalls env v v).
    split.
    { apply dispatch_run, handle_elapse, elapse_run. reflexivity. }
    unfold disposed, modalCalls. destruct v; cbn; repeat split; lia.
  - destruct n as [|n], v; by_cases_on_handler.
  - destruct (anchorHandler props AnchorPress) as [[|name]|] eqn:Ha, v, (isIOS env) eqn:Hios; by_cases_on_handler.
  - destruct (anchorHandler props AnchorLongPress) as [[|name]|] eqn:Ha, v, (isIOS env) eqn:Hios; by_cases_on_handler.
  - destruct v, (isIOS env) eqn:Hios; by_cases_on_handler.
  - destruct v, (isIOS env) eqn:Hios; by_cases_on_handler.
Qed.

Lemma elapsed_cons (ev : Event) (evs : list Event) :
  elapsed (ev :: evs) = elapsed [ev] + elapsed evs.
Proof. destruct ev; cbn; lia. Qed.

(** While the timer is pending and time stays short of its deadline, every
    event keeps it pending, and every measurement request comes with a
    toggle: none comes from the timer. *)
Lemma run_waiting (env : Env) (props : IProps) (tag : nat)
    (evs : list Event) (s : State) :
  waiting tag s ->
  forallb (fun ev => negb (is_unmount ev)) evs = true ->
  now s + elapsed evs < 500 ->
  exists s' out,
    run env props evs s = Ok tt s' out
    /\ waiting tag s'
    /\ count is_measure out = count is_setVisible out
    /\ (forallb idle evs = true -> pendingMeasure s = 0 ->
        out = [] /\ pendingMeasure s' = 0
        /\ renderedElementLayout s' = renderedElementLayout s).
Proof.
  revert s. induction evs as [|ev evs IH]; intros s Hw Hnu Hlt.
  - exists s, []. split; [reflexivity|]. split; [exact Hw|].
    split; [reflexivity|]. intros _ Hp. repeat split; assumption.
  - cbn [forallb] in Hnu. apply andb_prop in Hnu as [Hev Hnu].
    apply negb_true_iff in Hev.
    rewrite elapsed_cons in Hlt.
    destruct (dispatch_waiting env props tag ev s Hw Hev) as (s1 & o1 & Hd & Hw1 & Hnow & Hc1 & Hi1);
      [lia|].
    destruct (IH s1 Hw1 Hnu) as (s2 & o2 & Hr & Hw2 & Hc2 & Hi2); [lia|].
    exists s2, (o1 ++ o2). rewrite (run_cons _ _ _ _ _ _ _ Hd), Hr.
    split; [reflexivity|]. split; [exact Hw2|]. split.
    + rewrite !count_app. lia.
    + cbn [forallb]. intros Hidle Hp. apply andb_prop in Hidle as [Hi Hidle].
      destruct (Hi1 Hi Hp) as (-> & Hp1 & Hl1).
      destruct (Hi2 Hidle Hp1) as (-> & Hp2 & Hl2).
      repeat split; congruence.
Qed.

(** Once torn down, nothing measures and nothing toggles. *)
Lemma run_disposed (env : Env) (props : IProps) (evs : list Event) (s : State) :
  disposed s ->
  exists s' out,
    run env props evs s = Ok tt s' out
    /\ disposed s'
    /\ count is_measure out = 0
    /\ count is_setVisible out = 0
    /\ (pendingMeasure s = 0 ->
        out = [] /\ pendingMeasure s' = 0
        /\ renderedElementLayout s' = renderedElementLayout s).
Proof.
  revert s. induction evs as [|ev evs IH]; intros s Hd.
  - exists s, []. split; [reflexivity|]. split; [exact Hd|].
    split; [reflexivity|]. split; [reflexivity|].
    intros Hp. repeat split; assumption.
  - destruct (dispatch_disposed env props ev s Hd) as (s1 & o1 & Hd1 & Hdis1 & Hm1 & Hv1 & Hi1).
    destruct (IH s1 Hdis1) as (s2 & o2 & Hr & Hdis2 & Hm2 & Hv2 & Hi2).
    exists s2, (o1 ++ o2). rewrite (run_cons _ _ _ _ _ _ _ Hd1), Hr.
    rewrite !count_app, Hm1, Hm2, Hv1, Hv2.
    split; [reflexivity|]. split; [exact Hdis2|].
    split; [reflexivity|]. split; [reflexivity|].
    intros Hp. destruct (Hi1 Hp) as (-> & Hp1 & Hl1).
    destruct (Hi2 Hp1) as (-> & Hp2 & Hl2).
    repeat split; congruence.
Qed.

Lemma mount_run (env : Env) (props : IProps) (tag : nat) :
  dispatch env props (Mount tag) initialState
  = Ok tt {| isVisible := false; renderedElementLayout := initialLayout;
             current := Some tag; pendingMeasure := 0; lifecycle := Mounted;
             now := 0; timers := [{| timer_id := 1; due := 0 + 500 |}];
             nextTimerId := 2; effectTimeout := Some 1 |} [].
Proof. reflexivity. Qed.

(** C8: mounting schedules exactly one timer, due 500 ms later; left alone
    it fires once the 500 ms have passed and not before; when the component
    is torn down before that, whatever happened in between, the timer is
    removed, every measurement request in the whole run is one made by a
    toggle, and after a quiet wait nothing is emitted at all, before or
    after disposal, the stored layout staying at its initial value. *)
Theorem mount_measurement_cancelled (env : Env) (props : IProps) (tag : nat) :
  (exists s1,
      run env props [Mount tag] initialState = Ok tt s1 []
      /\ timers s1 = [{| timer_id := 1; due := now s1 + 500 |}])
  /\ (forall ms,
      output (run env props [Mount tag; Elapse ms] initialState)
      = if 500 <=? ms then [EMeasureInWindow tag] else [])
  /\ (forall before after,
      forallb (fun ev => negb (is_unmount ev)) before = true ->
      elapsed before < 500 ->
      exists s' out,
        run env props (Mount tag :: before ++ Unmount :: after) initialState
        = Ok tt s' out
        /\ timers s' = []
        /\ count is_measure out = count is_setVisible out
        /\ (forallb idle before = true ->
            out = [] /\ renderedElementLayout s' = initialLayout)).
Proof.
  split; [|split].
  - eexists. split; reflexivity.
  - intros ms.
    pose proof (mount_run env props tag) as Hm.
    match type of Hm with _ = Ok tt ?st _ => set (s := st) in * end.
    rewrite (run_cons _ _ _ _ _ _ _ Hm).
    destruct (500 <=? ms) eqn:Hleb.
    + assert (Hd : dispatch env props (Elapse ms) s
                   = Ok tt (with_pendingMeasure 1 (with_timers [] (with_now ms s)))
                        ([EMeasureInWindow tag] ++ modalCalls env false false)).
      { apply dispatch_run, handle_elapse, elapse_run.
        subst s. cbn -[Nat.leb]. rewrite Hleb. reflexivity. }
      rewrite (run_cons _ _ _ _ _ _ _ Hd). reflexivity.
    + assert (Hd : dispatch env props (Elapse ms) s
                   = Ok tt (with_now ms s) ([] ++ modalCalls env false false)).
      { apply dispatch_run, handle_elapse, elapse_run.
        subst s. cbn -[Nat.leb]. rewrite Hleb. reflexivity. }
      rewrite (run_cons _ _ _ _ _ _ _ Hd). reflexivity.
  - intros before after Hnu Hlt.
    pose proof (mount_run env props tag) as Hm.
    match type of Hm with _ = Ok tt ?st _ => set (s1 := st) in * end.
    assert (Hw1 : waiting tag s1) by (subst s1; repeat split).
    destruct (run_waiting env props tag before s1 Hw1 Hnu) as (s2 & o2 & Hr2 & Hw2 & Hc2 & Hi2);
      [exact Hlt|].
    destruct (dispatch_unmount env props tag s2 Hw2) as (s3 & Hd3 & Hdis3 & Hp3 & Hl3).
    destruct (run_disposed env props after s3 Hdis3) as (s4 & o4 & Hr4 & Hdis4 & Hm4 & Hv4 & Hi4).
    exists s4, ([] ++ o2 ++ [] ++ o4). split.
    { rewrite (run_cons _ _ _ _ _ _ _ Hm), (run_app _ _ _ _ _ _ _ Hr2),
        (run_cons _ _ _ _ _ _ _ Hd3), Hr4. reflexivity. }
    split; [apply Hdis4|]. split.
    + cbn [app]. rewrite !count_app, Hm4, Hv4. lia.
    + intros Hidle. destruct (Hi2 Hidle eq_refl) as (-> & Hp2 & Hl2).
      destruct Hi4 as (-> & Hp4 & Hl4); [congruence|].
      split; [reflexivity|]. rewrite Hl4, Hl3, Hl2. reflexivity.
Qed.

Lemma mount_measurement_cancelled_sample :
  exists s' out,
    run (sampleEnv false false) defaultProps
        (Mount 7 :: [Elapse 200; AnchorPress; Elapse 299]
           ++ Unmount :: [Elapse 1000; MeasureResult 20 700 100 40])
        initialState
    = Ok tt s' out
    /\ timers s' = []
    /\ count is_measure out = count is_setVisible out
    /\ (forallb idle [Elapse 200; AnchorPress; Elapse 299] = true ->
        out = [] /\ renderedElementLayout s' = initialLayout).
Proof.
  apply (proj2 (proj2 (mount_measurement_cancelled (sampleEnv false false)
                         defaultProps 7))).
  - reflexivity.
  - cbn. lia.
Defined.

(** ** Every toggle of a run measures *)

Lemma measured_current (s : State) : current (measured s) = current s.
Proof. unfold measured. destruct (current s) eqn:E; cbn; congruence. Qed.

Lemma runTimers_attached (expired : list Timer) (s : State) :
  exists s' out,
    runTimers expired s = Ok tt s' out
    /\ lifecycle s' = lifecycle s
    /\ current s' = current s
    /\ count is_setVisible out = 0.
Proof.
  revert s. induction expired as [|t rest IH]; intros s.
  - do 2 eexists. cbn. repeat split.
  - cbn [runTimers].
    destruct (IH (measured s)) as (s' & out & Hrun & Hl & Hcur & Hc).
    exists s', (measureRequest s ++ out).
    rewrite (bind_Ok _ _ _ _ _ _ (getElementPosition_run s)), Hrun.
    rewrite !count_app, Hc, count_measureRequest_other by reflexivity.
    rewrite Hl, Hcur, measured_lifecycle, measured_current.
    repeat split.
Qed.

Lemma dispatch_attached (env : Env) (props : IProps) (ev : Event) (s : State) :
  attached s ->
  exists s' out,
    dispatch env props ev s = Ok tt s' out
    /\ attached s'
    /\ count is_setVisible out <= count is_measure out.
Proof.
  intros Hatt. destruct ev.
  - (* Mount *)
    destruct s as [v l cur n [] t ts nid et], v; attached_case; exact Hatt.
  - (* Unmount *)
    destruct s as [v l cur n [] t ts nid [timeout|]], v; attached_case.
  - (* Elapse *)
    destruct (runTimers_attached
                (List.filter (fun tm => due tm <=? now s + ms) (timers s))
                (with_timers
                   (List.filter (fun tm => negb (due tm <=? now s + ms)) (timers s))
                   (with_now (now s + ms) s)))
      as (s' & out & Hrun & Hl & Hcur & Hc).
    cbn in Hl, Hcur.
    exists s', (out ++ modalCalls env (isVisible s) (isVisible s')).
    split; [apply dispatch_run, handle_elapse, elapse_run, Hrun|].
    split; [unfold attached; rewrite Hl, Hcur; exact Hatt|].
    rewrite !count_app, Hc. unfold modalCalls.
    destruct (isVisible s), (isVisible s'), (isIOS env); cbn; lia.
  - (* MeasureResult *)
    destruct s as [v l cur [|n] lc t ts nid et], v; attached_case; exact Hatt.
  - destruct s as [v l cur n [] t ts nid et];
      try (destruct (Hatt eq_refl) as [tag Htag]; cbn in Htag; subst cur);
      destruct (anchorHandler props AnchorPress) as [[|name]|] eqn:Ha, v, (isIOS env) eqn:Hios;
      attached_case.
  - destruct s as [v l cur n [] t ts nid et];
      try (destruct (Hatt eq_refl) as [tag Htag]; cbn in Htag; subst cur);
      destruct (anchorHandler props AnchorLongPress) as [[|name]|] eqn:Ha, v, (isIOS env) eqn:Hios;
      attached_case.
  - destruct s as [v l cur n [] t ts nid et];
      try (destruct (Hatt eq_refl) as [tag Htag]; cbn in Htag; subst cur);
      destruct v, (isIOS env) eqn:Hios; attached_case.
  - destruct s as [v l cur n [] t ts nid et];
      try (destruct (Hatt eq_refl) as [tag Htag]; cbn in Htag; subst cur);
      destruct v, (isIOS env) eqn:Hios; attached_case.
Qed.

(** In every run of the component from its initial state, each toggle
    (each [setIsVisible]) comes with a [measureInWindow] request. *)
Lemma run_attached (env : Env) (props : IProps) (evs : list Event) (s : State) :
  attached s ->
  exists s' out,
    run env props evs s = Ok tt s' out
    /\ count is_setVisible out <= count is_measure out.
Proof.
  revert s. induction evs as [|ev evs IH]; intros s Hatt.
  - exists s, []. split; [reflexivity|]. cbn. lia.
  - destruct (dispatch_attached env props ev s Hatt) as (s1 & o1 & Hd & Hatt1 & Hc1).
    destruct (IH s1 Hatt1) as (s2 & o2 & Hr & Hc2).
    exists s2, (o1 ++ o2). rewrite (run_cons _ _ _ _ _ _ _ Hd), Hr.
    split; [reflexivity|]. rewrite !count_app. lia.
Qed.

(** C7: every toggle starts by running the measurement: its effects begin
    with those of [getElementPosition] and nothing after them measures
    again; with the anchor ref attached that is exactly one
    [measureInWindow] request, whether the overlay is being opened or
    closed; and in every run of the component from its initial state each
    toggle comes with such a request. *)
Theorem toggleTooltip_remeasures (env : Env) (s : State) :
  (exists s' rest,
      toggleTooltip env s = Ok tt s' (output (getElementPosition s) ++ rest)
      /\ count is_measure rest = 0
      /\ pendingMeasure s' = pendingMeasure (measured s)
      /\ (forall tag, current s = Some tag ->
          output (getElementPosition s) = [EMeasureInWindow tag]
          /\ count is_measure (output (toggleTooltip env s)) = 1
          /\ pendingMeasure s' = S (pendingMeasure s)))
  /\ (forall props evs,
      exists s' out,
        run env props evs initialState = Ok tt s' out
        /\ count is_setVisible out <= count is_measure out).
Proof.
  split.
  - rewrite toggleTooltip_run, getElementPosition_run. cbn [output].
    do 2 eexists. split; [reflexivity|]. split; [|split].
    + destruct (isVisible s), (isIOS env); reflexivity.
    + reflexivity.
    + intros tag Hcur. unfold measureRequest, measured. rewrite Hcur.
      repeat split.
      destruct (isVisible s), (isIOS env); reflexivity.
  - intros props evs. apply run_attached. intros Hl. discriminate Hl.
Qed.

(** ** Invariants of every run *)

(** Expired timers change nothing but the count of pending measurements,
    and emit at most one measurement request each. *)
Lemma runTimers_frame (expired : list Timer) (s : State) :
  exists s' out,
    runTimers expired s = Ok tt s' out
    /\ s' = with_pendingMeasure (pendingMeasure s') s
    /\ count is_onOpen out = 0
    /\ count is_onClose out = 0
    /\ count is_setVisible out = 0
    /\ count is_measure out <= length expired.
Proof.
  revert s. induction expired as [|t rest IH]; intros s.
  - exists s, []. destruct s. cbn. repeat split. lia.
  - cbn [runTimers].
    destruct (IH (measured s)) as (s' & out & Hrun & Hs' & Ho & Hc & Hv & Hm).
    exists s', (measureRequest s ++ out).
    rewrite (bind_Ok _ _ _ _ _ _ (getElementPosition_run s)), Hrun.
    rewrite !count_app, Ho, Hc, Hv, !count_measureRequest_other by reflexivity.
    split; [reflexivity|]. split.
    { rewrite Hs' at 1. unfold measured. destruct (current s); reflexivity. }
    repeat split. cbn [length]. unfold measureRequest.
    destruct (current s); cbn; lia.
Qed.

(** What one event does, whatever the state: how the visibility moves, which
    callbacks are called, what happens to the stored layout, and how many
    measurements are requested against the timers that are left. *)
Lemma dispatch_facts (env : Env) (props : IProps) (ev : Event) (s : State) :
  exists s' out,
    dispatch env props ev s = Ok tt s' out
    /\ isVisible s' = xorb (isVisible s) (Nat.odd (count is_setVisible out))
    /\ count is_setVisible out <= 1
    /\ count is_onOpen out = b2n (negb (isVisible s) && isVisible s')
    /\ count is_onClose out
       = b2n (isVisible s && negb (isVisible s'))
         + b2n (is_requestClose ev && is_mounted s && isVisible s)
    /\ (is_measureResult ev = false ->
        renderedElementLayout s' = renderedElementLayout s)
    /\ (isVisible s = false ->
        isVisible s' = is_mounted s && opens props ev)
    /\ count is_measure out + timerBudget s'
       <= count is_setVisible out + timerBudget s
    /\ (is_press ev = false -> count is_setVisible out = 0).
Proof.
  destruct ev.
  - (* Mount *)
    destruct s as [v l cur n [] t ts nid et], v; facts_case.
    all: rewrite length_app; cbn; lia.
  - (* Unmount *)
    destruct s as [v l cur n [] t ts nid [timeout|]], v; facts_case.
    all: match goal with
         | |- context [List.filter ?f ?l] =>
             pose proof (List.filter_length_le f l); lia
         end.
  - (* Elapse *)
    destruct (runTimers_frame
                (List.filter (fun tm => due tm <=? now s + ms) (timers s))
                (with_timers
                   (List.filter (fun tm => negb (due tm <=? now s + ms)) (timers s))
                   (with_now (now s + ms) s)))
      as (s' & out & Hrun & Hs' & Ho & Hc & Hv & Hm).
    exists s', (out ++ modalCalls env (isVisible s) (isVisible s')).
    split; [apply dispatch_run, handle_elapse, elapse_run, Hrun|].
    pose proof (List.filter_length (fun tm => due tm <=? now s + ms) (timers s)) as Hlen.
    rewrite Hs'. unfold timerBudget, modalCalls. cbn.
    rewrite !count_app, Ho, Hc, Hv.
    destruct (isVisible s), (lifecycle s), (actionType props);
      cbn; repeat split; lia.
  - (* MeasureResult *)
    destruct s as [v l cur [|n] lc t ts nid et], v; facts_case.
  - destruct s as [v l [tag|] n [] t ts nid et],
      (anchorHandler props AnchorPress) as [[|name]|] eqn:Ha,
      v, (isIOS env) eqn:Hios; facts_case.
  - destruct s as [v l [tag|] n [] t ts nid et],
      (anchorHandler props AnchorLongPress) as [[|name]|] eqn:Ha,
      v, (isIOS env) eqn:Hios; facts_case.
  - destruct s as [v l [tag|] n [] t ts nid et],
      v, (isIOS env) eqn:Hios; facts_case.
  - destruct s as [v l [tag|] n [] t ts nid et], v, (isIOS env) eqn:Hios; facts_case.
Qed.

Lemma run_nil (env : Env) (props : IProps) (s : State) :
  run env props [] s = Ok tt s [].
Proof. reflexivity. Qed.

(** X2: the visibility after any run is the visibility before it, flipped
    once per [setIsVisible] call; and a run without a gesture (timers,
    measurement results, mounting, tearing down, the [Modal]'s request to
    close) calls [setIsVisible] not once and leaves the visibility as it
    was. *)
Theorem run_visibility_parity
    (env : Env) (props : IProps) (evs : list Event) (s : State) :
  exists s' out,
    run env props evs s = Ok tt s' out
    /\ isVisible s' = xorb (isVisible s) (Nat.odd (count is_setVisible out))
    /\ (forallb (fun ev => negb (is_press ev)) evs = true ->
        isVisible s' = isVisible s /\ count is_setVisible out = 0).
Proof.
  revert s. induction evs as [|ev evs IH]; intros s.
  - exists s, []. split; [reflexivity|]. cbn.
    destruct (isVisible s); repeat split.
  - destruct (dispatch_facts env props ev s)
      as (s1 & o1 & Hd & Hv1 & _ & _ & _ & _ & _ & _ & Hquiet1).
    destruct (IH s1) as (s2 & o2 & Hr & Hv2 & Hquiet2).
    exists s2, (o1 ++ o2). rewrite (run_cons _ _ _ _ _ _ _ Hd), Hr.
    split; [reflexivity|].
    assert (Hparity : isVisible s2
                      = xorb (isVisible s) (Nat.odd (count is_setVisible (o1 ++ o2)))).
    { rewrite count_app, Nat.odd_add, Hv2, Hv1.
      destruct (isVisible s), (Nat.odd (count is_setVisible o1)),
               (Nat.odd (count is_setVisible o2)); reflexivity. }
    split; [exact Hparity|].
    cbn [forallb]. intros Hall. apply andb_prop in Hall as [Hev Hall].
    apply negb_true_iff in Hev.
    destruct (Hquiet2 Hall) as [_ Hc2]. specialize (Hquiet1 Hev).
    assert (Hc : count is_setVisible (o1 ++ o2) = 0)
      by (rewrite count_app; lia).
    split; [|exact Hc]. rewrite Hparity, Hc. cbn.
    destruct (isVisible s); reflexivity.
Qed.

(** X1: over any sequence of events, from any state, the calls of [onOpen]
    and [onClose] stay balanced with the visibility: opens plus "visible at
    the start" never exceed closes plus "visible at the end", and the two
    are equal when the [Modal] never asks to be closed. *)
Theorem run_callback_balance
    (env : Env) (props : IProps) (evs : list Event) (s : State) :
  exists s' out,
    run env props evs s = Ok tt s' out
    /\ count is_onOpen out + b2n (isVisible s)
       <= count is_onClose out + b2n (isVisible s')
    /\ (forallb (fun ev => negb (is_requestClose ev)) evs = true ->
        count is_onOpen out + b2n (isVisible s)
        = count is_onClose out + b2n (isVisible s')).
Proof.
  revert s. induction evs as [|ev evs IH]; intros s.
  - exists s, []. cbn. repeat split; lia.
  - destruct (dispatch_facts env props ev s)
      as (s1 & o1 & Hd & _ & _ & Ho1 & Hc1 & _).
    destruct (IH s1) as (s2 & o2 & Hr & Hle & Heq).
    exists s2, (o1 ++ o2). rewrite (run_cons _ _ _ _ _ _ _ Hd), Hr.
    split; [reflexivity|]. rewrite !count_app, Ho1, Hc1. split.
    + destruct (isVisible s), (isVisible s1), (isVisible s2),
        (is_requestClose ev && is_mounted s); cbn in *; lia.
    + cbn [forallb]. intros Hall. apply andb_prop in Hall as [Hev Hall].
      apply negb_true_iff in Hev. rewrite Hev. specialize (Heq Hall).
      destruct (isVisible s), (isVisible s1), (isVisible s2); cbn in *; lia.
Qed.

(** X6: the stored layout changes only when a measurement result arrives:
    presses, timers, mounting, tearing down and the [Modal]'s request to
    close leave it as it is (a toggle asks for a measurement, it does not
    wait for it). *)
Theorem run_layout_only_by_measurement
    (env : Env) (props : IProps) (evs : list Event) (s : State) :
  forallb (fun ev => negb (is_measureResult ev)) evs = true ->
  exists s' out,
    run env props evs s = Ok tt s' out
    /\ renderedElementLayout s' = renderedElementLayout s.
Proof.
  revert s. induction evs as [|ev evs IH]; intros s Hall.
  - exists s, []. split; reflexivity.
  - cbn [forallb] in Hall. apply andb_prop in Hall as [Hev Hall].
    apply negb_true_iff in Hev.
    destruct (dispatch_facts env props ev s)
      as (s1 & o1 & Hd & _ & _ & _ & _ & Hl1 & _).
    destruct (IH s1 Hall) as (s2 & o2 & Hr & Hl2).
    exists s2, (o1 ++ o2). rewrite (run_cons _ _ _ _ _ _ _ Hd), Hr.
    split; [reflexivity|]. rewrite Hl2. apply Hl1, Hev.
Qed.

Lemma opens_none (props : IProps) (ev : Event) :
  actionType props = none -> opens props ev = false.
Proof.
  intros Hnone. unfold opens, anchorHandler. rewrite Hnone.
  destruct ev; reflexivity.
Qed.

(** X4: with [actionType] ["none"] a hidden overlay stays hidden whatever
    happens: no event toggles it and neither callback is ever called. *)
Theorem run_actionType_none
    (env : Env) (props : IProps) (evs : list Event) (s : State) :
  actionType props = none ->
  isVisible s = false ->
  exists s' out,
    run env props evs s = Ok tt s' out
    /\ isVisible s' = false
    /\ count is_setVisible out = 0
    /\ count is_onOpen out = 0
    /\ count is_onClose out = 0.
Proof.
  intros Hnone. revert s. induction evs as [|ev evs IH]; intros s Hv.
  - exists s, []. repeat split. exact Hv.
  - destruct (dispatch_facts env props ev s)
      as (s1 & o1 & Hd & Hp1 & Hb1 & Ho1 & Hc1 & _ & Hopen & _).
    specialize (Hopen Hv). rewrite (opens_none props ev Hnone), andb_false_r in Hopen.
    rewrite Hv, Hopen in *. cbn in Hp1, Ho1, Hc1. rewrite andb_false_r in Hc1.
    destruct (IH s1 Hopen) as (s2 & o2 & Hr & Hv2 & Hs2 & Ho2 & Hc2).
    exists s2, (o1 ++ o2). rewrite (run_cons _ _ _ _ _ _ _ Hd), Hr.
    rewrite !count_app, Ho1, Hc1, Hs2, Ho2, Hc2.
    repeat split; try assumption.
    destruct (count is_setVisible o1) as [|[|k]]; [reflexivity| |lia].
    cbn in Hp1. discriminate Hp1.
Qed.

(** Every measurement request that is not paid for by a toggle uses up a
    timer. *)
Lemma run_measure_budget
    (env : Env) (props : IProps) (evs : list Event) (s : State) :
  exists s' out,
    run env props evs s = Ok tt s' out
    /\ count is_measure out + timerBudget s'
       <= count is_setVisible out + timerBudget s.
Proof.
  revert s. induction evs as [|ev evs IH]; intros s.
  - exists s, []. split; [reflexivity|]. cbn. lia.
  - destruct (dispatch_facts env props ev s)
      as (s1 & o1 & Hd & _ & _ & _ & _ & _ & _ & Hm1 & _).
    destruct (IH s1) as (s2 & o2 & Hr & Hm2).
    exists s2, (o1 ++ o2). rewrite (run_cons _ _ _ _ _ _ _ Hd), Hr.
    split; [reflexivity|]. rewrite !count_app. lia.
Qed.

(** X5: in any run of the component from its initial state, at most one
    [measureInWindow] request is not made by a toggle: the timer of the
    mount effect measures once at most, and nothing else measures. *)
Theorem run_timer_measures_once
    (env : Env) (props : IProps) (evs : list Event) :
  exists s' out,
    run env props evs initialState = Ok tt s' out
    /\ count is_measure out <= count is_setVisible out + 1.
Proof.
  destruct (run_measure_budget env props evs initialState) as (s' & out & Hr & Hm).
  exists s', out. split; [exact Hr|].
  change (timerBudget initialState) with 1 in Hm. lia.
Qed.

(** X8: no sequence of events, from any state, makes a handler throw: every
    [measureInWindow] call, by a toggle or by the timer, is behind the guard
    on the ref. *)
Theorem run_never_throws
    (env : Env) (props : IProps) (evs : list Event) (s : State) :
  exists s' out, run env props evs s = Ok tt s' out.
Proof.
  revert s. induction evs as [|ev evs IH]; intros s.
  - exists s, []. reflexivity.
  - destruct (dispatch_facts env props ev s) as (s1 & o1 & Hd & _).
    destruct (IH s1) as (s2 & o2 & Hr).
    exists s2, (o1 ++ o2). rewrite (run_cons _ _ _ _ _ _ _ Hd), Hr. reflexivity.
Qed.



(** X7: a measurement result that arrives for a pending request is stored
    as it came: the layout holds the four measured numbers, the placement
    engine is then asked with exactly these (x, y, width, height, in this
    order), and the highlight layer sits on the measured rectangle. *)
Theorem measureResult_stored
    (env : Env) (props : IProps) (s : State)
    (pageOffsetX pageOffsetY measuredWidth measuredHeight : float) :
  0 < pendingMeasure s ->
  exists s' out,
    dispatch env props
      (MeasureResult pageOffsetX pageOffsetY measuredWidth measuredHeight) s
    = Ok tt s' out
    /\ renderedElementLayout s'
       = {| yOffset := pageOffsetY; xOffset := pageOffsetX;
            elementWidth := measuredWidth; elementHeight := measuredHeight |}
    /\ isVisible s' = isVisible s
    /\ tooltipCoordinate env props (renderedElementLayout s')
       = getTooltipCoordinate env pageOffsetX pageOffsetY
           measuredWidth measuredHeight
           (ScreenWidth env) (ScreenHeight env) (width props) (withPointer props)
    /\ highlightViewStyle env props (renderedElementLayout s') !! "top"
       = Some (VNum pageOffsetY)
    /\ highlightViewStyle env props (renderedElementLayout s') !! "width"
       = Some (VNum measuredWidth)
    /\ highlightViewStyle env props (renderedElementLayout s') !! "height"
       = Some (VNum measuredHeight)
    /\ horizontal (isRTL env) pageOffsetX
         (highlightViewStyle env props (renderedElementLayout s')).
Proof.
  intros Hp. destruct s as [v l cur [|n] lc t ts nid et]; [cbn in Hp; lia|].
  destruct v; do 2 eexists; (split; [run_handler; reflexivity|]);
    cbn [renderedElementLayout isVisible];
    (split; [reflexivity|]); (split; [reflexivity|]); (split; [reflexivity|]);
    (split; [reflexivity|]); (split; [reflexivity|]); (split; [reflexivity|]);
    unfold horizontal, unset, highlightViewStyle; cbn [xOffset];
    destruct (isRTL env); split; try reflexivity; right; reflexivity.
Qed.

Lemma measureResult_stored_sample :
  exists s' out,
    dispatch (sampleEnv false false) defaultProps (MeasureResult 20 700 100 40)
      (with_pendingMeasure 1 initialState)
    = Ok tt s' out
    /\ renderedElementLayout s' = lowAnchor.
Proof.
  destruct (measureResult_stored (sampleEnv false false) defaultProps
              (with_pendingMeasure 1 initialState) 20 700 100 40)
    as (s' & out & Hd & Hl & _).
  - cbn. lia.
  - exists s', out. split; [exact Hd | exact Hl].
Defined.

(** ** More on the styles *)

(** X9: of the two vertical edges the placement writes one and leaves the
    other to the caller: when flipped with a non-numeric height [bottom] is
    set and [top] is what [containerStyle] has (nothing, if it has none);
    otherwise [top] is set and [bottom] is what [containerStyle] has. *)
Theorem getTooltipStyle_other_edge (env : Env) (props : IProps) (layout : Layout) :
  let style := fst (getTooltipStyle env props layout) in
  let pastMiddleLine := snd (getTooltipStyle env props layout) in
  if negb (typeof_number (height props)) && pastMiddleLine
  then style !! "top" = containerStyle props !! "top"
       /\ is_Some (style !! "bottom")
  else style !! "bottom" = containerStyle props !! "bottom"
       /\ is_Some (style !! "top").
Proof.
  intros style pastMiddleLine.
  pose proof (getTooltipStyle_placed env props layout) as Hp.
  assert (Hother : forall k, k <> placedEdge env props layout ->
            (k = "top" \/ k = "bottom") ->
            style !! k = containerStyle props !! k).
  { intros k Hk Hkk. unfold style.
    rewrite getTooltipStyle_lookup_other by exact Hk.
    unfold mergedStyle. rewrite lookup_union_l; [reflexivity|].
    destruct Hkk as [-> | ->]; reflexivity. }
  unfold placedEdge in Hp, Hother. fold pastMiddleLine in Hp, Hother.
  destruct (negb (typeof_number (height props)) && pastMiddleLine).
  - split; [apply Hother; [discriminate | left; reflexivity]|].
    unfold style. rewrite Hp. eexists. reflexivity.
  - split; [apply Hother; [discriminate | right; reflexivity]|].
    unfold style. rewrite Hp. eexists. reflexivity.
Qed.

Lemma computedStyle_direction (env : Env) (props : IProps) (layout : Layout)
    (rtl : bool) (k : string) :
  k <> "left" -> k <> "right" ->
  computedStyle (with_isRTL rtl env) props layout !! k
  = computedStyle env props layout !! k.
Proof.
  intros Hl Hr. unfold computedStyle.
  rewrite !list_to_map_cons, !lookup_insert.
  repeat case_decide; try reflexivity; congruence.
Qed.

(** X10: the layout direction changes [left] and [right] and nothing else:
    the flip flag and every other property of the tooltip box, of the
    pointer and of the highlight layer are the same in both directions. *)
Theorem direction_changes_left_right_only
    (env : Env) (props : IProps) (layout : Layout)
    (rtl pastMiddleLine : bool) (k : string) :
  k <> "left" -> k <> "right" ->
  snd (getTooltipStyle (with_isRTL rtl env) props layout)
    = snd (getTooltipStyle env props layout)
  /\ fst (getTooltipStyle (with_isRTL rtl env) props layout) !! k
     = fst (getTooltipStyle env props layout) !! k
  /\ pointerViewStyle (with_isRTL rtl env) layout pastMiddleLine !! k
     = pointerViewStyle env layout pastMiddleLine !! k
  /\ highlightViewStyle (with_isRTL rtl env) props layout !! k
     = highlightViewStyle env props layout !! k.
Proof.
  intros Hl Hr. split; [reflexivity|]. split; [|split].
  - rewrite !getTooltipStyle_fst.
    change (placedEdge (with_isRTL rtl env) props layout)
      with (placedEdge env props layout).
    change (placedValue (with_isRTL rtl env) props layout)
      with (placedValue env props layout).
    rewrite !lookup_insert. case_decide; [reflexivity|].
    unfold mergedStyle. rewrite !lookup_union.
    rewrite computedStyle_direction by assumption. reflexivity.
  - unfold pointerViewStyle.
    rewrite !list_to_map_cons, !lookup_insert.
    repeat case_decide; try reflexivity; congruence.
  - unfold highlightViewStyle.
    rewrite !list_to_map_cons, !lookup_insert.
    repeat case_decide; try reflexivity; congruence.
Qed.

Lemma direction_changes_left_right_only_sample :
  fst (getTooltipStyle (sampleEnv false true) defaultProps lowAnchor) !! "top"
  = fst (getTooltipStyle (sampleEnv false false) defaultProps lowAnchor) !! "top".
Proof.
  refine (proj1 (proj2 (direction_changes_left_right_only
            (sampleEnv false false) defaultProps lowAnchor true true "top" _ _)));
    discriminate.
Defined.

(** ** The pointer *)

Lemma Triangle_unfold (style : gmap string styleval) (isDown : bool) :
  Triangle style isDown
  = (if isDown then styles_down else ∅) ∪ (style ∪ styles_triangle).
Proof.
  unfold Triangle, flattenStyle. cbn [foldl].
  rewrite (right_id_L ∅ (∪) styles_triangle). reflexivity.
Qed.

Lemma Triangle_lookup_other (style : gmap string styleval) (isDown : bool)
    (k : string) :
  k <> "transform" ->
  Triangle style isDown !! k
  = match style !! k with
    | Some v => Some v
    | None => styles_triangle !! k
    end.
Proof.
  intros Hk. rewrite Triangle_unfold.
  assert (Hd : (if isDown then styles_down else ∅) !! k = None).
  { destruct isDown; [apply lookup_singleton_ne; congruence | apply lookup_empty]. }
  rewrite (lookup_union_r _ _ _ Hd), lookup_union.
  destruct (style !! k), (styles_triangle !! k); reflexivity.
Qed.

Lemma Triangle_lookup_transform (style : gmap string styleval) (isDown : bool) :
  Triangle style isDown !! "transform"
  = if isDown then Some (STransform [("rotate", "180deg")])
    else style !! "transform".
Proof.
  rewrite Triangle_unfold. destruct isDown.
  - apply lookup_union_Some_l. reflexivity.
  - rewrite (left_id_L ∅ (∪)). apply lookup_union_l. reflexivity.
Qed.

(** X11: the style of a [Triangle]: the caller's style wins over the
    defaults of [styles.triangle] for every property but [transform]; a
    triangle that points down is rotated by 180 degrees whatever the caller
    passed as [transform], one that points up has the caller's [transform]
    (none by default). *)
Theorem Triangle_style (style : gmap string styleval) (isDown : bool) (k : string) :
  (k <> "transform" ->
   Triangle style isDown !! k
   = match style !! k with
     | Some v => Some v
     | None => styles_triangle !! k
     end)
  /\ Triangle style true !! "transform"
     = Some (STransform [("rotate", "180deg")])
  /\ Triangle style false !! "transform" = style !! "transform".
Proof.
  split; [|split].
  - apply Triangle_lookup_other.
  - apply (Triangle_lookup_transform style true).
  - apply (Triangle_lookup_transform style false).
Qed.

(** X12: the colour of the pointer: [pointerStyle.borderBottomColor] when
    the caller sets it, else [pointerColor] when it is a non-empty string,
    else [backgroundColor]; the white default of [Triangle] never shows. *)
Theorem pointer_borderBottomColor
    (env : Env) (props : IProps) (layout : Layout) (pastMiddleLine : bool) :
  snd (renderPointer env props layout pastMiddleLine) !! "borderBottomColor"
  = Some (SScalar
            match pointerStyle props !! "borderBottomColor" with
            | Some v => v
            | None =>
                VStr match pointerColor props with
                     | Some c => if String.eqb c "" then backgroundColor props else c
                     | None => backgroundColor props
                     end
            end).
Proof.
  unfold renderPointer. cbn [snd].
  rewrite Triangle_lookup_other by discriminate.
  rewrite lookup_fmap. unfold pointerTriangleStyle. rewrite lookup_union.
  rewrite lookup_singleton_eq.
  unfold pointerColorOrBackground, truthy_string.
  destruct (pointerStyle props !! "borderBottomColor"); cbn; [reflexivity|].
  destruct (pointerColor props) as [c|]; [|reflexivity].
  destruct (String.eqb c ""); reflexivity.
Qed.

(** X13: what is drawn with the popover (for a [pointerStyle] without a
    [transform]): the box has the style of [getTooltipStyle]; there is no
    pointer without [withPointer]; with it, the pointer is rotated exactly
    when the box is flipped above the anchor, and sits 13 units above the
    anchor's top edge when flipped, 2 units above its bottom edge when not. *)
Theorem renderContent_pointer (env : Env) (props : IProps) (layout : Layout) :
  pointerStyle props !! "transform" = None ->
  let pastMiddleLine := snd (getTooltipStyle env props layout) in
  tooltipView (renderContent env props layout)
    = fst (getTooltipStyle env props layout)
  /\ (withPointer props = false ->
      pointerView (renderContent env props layout) = None)
  /\ (withPointer props = true ->
      exists view triangle,
        pointerView (renderContent env props layout) = Some (view, triangle)
        /\ view !! "top"
           = Some (VNum (if pastMiddleLine
                         then (yOffset layout - 13)%float
                         else (yOffset layout + elementHeight layout - 2)%float))
        /\ triangle !! "transform"
           = (if pastMiddleLine
              then Some (STransform [("rotate", "180deg")])
              else None)).
Proof.
  intros Htr pastMiddleLine. unfold renderContent.
  destruct (getTooltipStyle env props layout) as [tooltipStyle past] eqn:Hstyle.
  cbn [fst snd tooltipView pointerView] in *. subst pastMiddleLine.
  split; [reflexivity|]. split.
  - intros ->. reflexivity.
  - intros ->. do 2 eexists. split; [reflexivity|]. split; [reflexivity|].
    rewrite Triangle_lookup_transform.
    destruct past; [reflexivity|]. rewrite lookup_fmap.
    unfold pointerTriangleStyle. rewrite lookup_union, Htr.
    rewrite lookup_singleton_ne by discriminate. reflexivity.
Qed.

Lemma renderContent_pointer_sample :
  exists view triangle,
    pointerView (renderContent (sampleEnv false false) defaultProps lowAnchor)
      = Some (view, triangle)
    /\ view !! "top" = Some (VNum 687)
    /\ triangle !! "transform" = Some (STransform [("rotate", "180deg")]).
Proof.
  exact (proj2 (proj2 (renderContent_pointer (sampleEnv false false) defaultProps
                         lowAnchor eq_refl)) eq_refl).
Defined.

(** ** Sample runs *)


(** A caller's [onPress] in [toggleWrapperProps] takes the place of the
    toggle: the press calls it, and the overlay stays hidden. *)
Example own_onPress_replaces_toggle :
  dispatch (sampleEnv false false) ownPressProps AnchorPress mountedHidden
  = Ok tt mountedHidden [ECallerHandler "track"].
Proof. reflexivity. Qed.

Lemma run_actionType_none_sample :
  exists s' out,
    run (sampleEnv false false) (with_actionType none defaultProps)
        [Mount 7; AnchorPress; AnchorLongPress; OverlayPress; ModalRequestClose]
        initialState
    = Ok tt s' out
    /\ isVisible s' = false
    /\ count is_setVisible out = 0
    /\ count is_onOpen out = 0
    /\ count is_onClose out = 0.
Proof.
  apply (run_actionType_none (sampleEnv false false)
           (with_actionType none defaultProps)); reflexivity.
Defined.

Lemma run_layout_only_by_measurement_sample :
  exists s' out,
    run (sampleEnv false false) defaultProps
        [Mount 7; AnchorPress; Elapse 600; OverlayPress] initialState
    = Ok tt s' out
    /\ renderedElementLayout s' = renderedElementLayout initialState.
Proof.
  apply (run_layout_only_by_measurement (sampleEnv false false) defaultProps).
  reflexivity.
Defined.
